(** * austin.aio: the asynchronous Austin supervisor

    A shallow embedding of [src/austin/aio.py]: the metadata reader
    [_read_meta], the helpers [_read_stderr], [_read_header] and
    [_read_footer], and the coroutine [AsyncAustin.start] with its
    [try]/[finally] structure.

    The child process is represented by what it hands to the coroutine: the
    outcome of the spawn, the successive results of [readline()] on its
    standard output, the result of the bounded read of its standard error,
    and its exit code.  The host is represented by its callbacks, each of
    which either returns or raises, and by the value of [self._running] each
    time the sample loop tests it.  The coroutine runs as a single
    cooperative task, so one run is a sequential computation over that data;
    every action it performs is recorded, in program order, in a trace.

    Python values are modelled as Python has them: [bytes] as lists of
    bytes, [str] as lists of code points ([decode()] is strict UTF-8 and may
    raise), [rstrip()] with the whitespace of each type, dictionaries as
    finite maps. *)

From Stdlib Require Import ZArith NArith List String Ascii DecimalString.
From Stdlib.Strings Require Import Byte.
From stdpp Require Import base option list gmap.
Import ListNotations.

Local Open Scope Z_scope.

(** ** Python values *)

(** [bytes] objects are sequences of bytes, [str] objects sequences of Unicode
    code points, and the metadata dictionaries map [str] to [str]. *)
Abbreviation bytes := (list byte) (only parsing).
Abbreviation str := (list N) (only parsing).
Abbreviation dict := (gmap (list N) (list N)) (only parsing).

Module Py.

(** An ASCII literal as a [str] and as a [bytes] object. *)
Definition u (s : string) : str := map N_of_ascii (list_ascii_of_string s).
Definition b (s : string) : bytes := list_byte_of_string s.

(** The newline byte, which Rocq string literals cannot escape. *)
Definition nl : bytes := [x0a].

(** Truthiness of a sequence: [if line], [if not data]. *)
Definition truthy {A} (s : list A) : bool :=
  match s with [] => false | _ :: _ => true end.

(** [bytes.rstrip()] removes trailing ASCII whitespace:
    space, [\t], [\n], [\v], [\f], [\r]. *)
Definition bytes_isspace (c : byte) : bool :=
  let n := Byte.to_N c in
  ((9 <=? n) && (n <=? 13) || (n =? 32))%N.

(** [str.rstrip()] removes trailing Unicode whitespace, the code points for
    which [str.isspace] holds. *)
Definition str_isspace (c : N) : bool :=
  ((9 <=? c) && (c <=? 13) || (28 <=? c) && (c <=? 32)
   || (c =? 133) || (c =? 160) || (c =? 5760)
   || (8192 <=? c) && (c <=? 8202)
   || (c =? 8232) || (c =? 8233) || (c =? 8239) || (c =? 8287)
   || (c =? 12288))%N.

(** [s.rstrip()] for a notion of whitespace [sp]. *)
Fixpoint rstrip_by {A} (sp : A → bool) (s : list A) : list A :=
  match s with
  | [] => []
  | c :: s' =>
      match rstrip_by sp s' with
      | [] => if sp c then [] else [c]
      | t => c :: t
      end
  end.

Definition bytes_rstrip : bytes → bytes := rstrip_by bytes_isspace.
Definition str_rstrip : str → str := rstrip_by str_isspace.

(** [bytes.decode()]: strict UTF-8.  [None] stands for
    [UnicodeDecodeError]. *)
Definition continuation (c : N) : bool := ((128 <=? c) && (c <=? 191))%N.

Definition between (lo hi c : N) : bool := ((lo <=? c) && (c <=? hi))%N.

Fixpoint utf8_decode (bs : list N) : option str :=
  match bs with
  | [] => Some []
  | b0 :: r0 =>
      if (b0 <? 128)%N then cons b0 <$> utf8_decode r0
      else if between 194 223 b0 then
        match r0 with
        | b1 :: r1 =>
            if continuation b1
            then cons ((b0 - 192) * 64 + (b1 - 128))%N <$> utf8_decode r1
            else None
        | _ => None
        end
      else if between 224 239 b0 then
        match r0 with
        | b1 :: b2 :: r2 =>
            let lo := if (b0 =? 224)%N then 160%N else 128%N in
            let hi := if (b0 =? 237)%N then 159%N else 191%N in
            if between lo hi b1 && continuation b2
            then cons ((b0 - 224) * 4096 + (b1 - 128) * 64 + (b2 - 128))%N
                   <$> utf8_decode r2
            else None
        | _ => None
        end
      else if between 240 244 b0 then
        match r0 with
        | b1 :: b2 :: b3 :: r3 =>
            let lo := if (b0 =? 240)%N then 144%N else 128%N in
            let hi := if (b0 =? 244)%N then 143%N else 191%N in
            if between lo hi b1 && continuation b2 && continuation b3
            then cons ((b0 - 240) * 262144 + (b1 - 128) * 4096
                       + (b2 - 128) * 64 + (b3 - 128))%N
                   <$> utf8_decode r3
            else None
        | _ => None
        end
      else None
  end.

Definition decode (raw : bytes) : option str :=
  utf8_decode (map Byte.to_N raw).

(** [s.startswith(prefix)]. *)
Fixpoint startswith (s prefix : str) {struct prefix} : bool :=
  match prefix, s with
  | [], _ => true
  | _ :: _, [] => false
  | p :: prefix', c :: s' => (c =? p)%N && startswith s' prefix'
  end.

(** [s.partition(sep)] for a non-empty [sep]: split at the first occurrence
    of [sep]; [(s, "", "")] when there is none. *)
Fixpoint partition (s sep : str) : str * str * str :=
  match s with
  | [] => ([], [], [])
  | c :: s' =>
      if startswith s sep then ([], sep, drop (length sep) s)
      else let '(before, found, after) := partition s' sep in
           (c :: before, found, after)
  end.

(** [str(n)] for an [int]. *)
Definition str_of_int (n : Z) : str :=
  u (NilEmpty.string_of_int (Z.to_int n)).

(** [str(o)] for an optional string, as the f-string renders it. *)
Definition str_of_optional (o : option str) : str :=
  match o with
  | None => u "None"
  | Some s => s
  end.

(** Truthiness of a dictionary: [if not meta]. *)
Definition dict_truthy (m : dict) : bool := bool_decide (m ≠ ∅).

(** [sep in s]. *)
Fixpoint contains (s sep : str) : bool :=
  match s with
  | [] => startswith [] sep
  | _ :: s' => startswith s sep || contains s' sep
  end.

(** [m.update(other)]: the entries of [other] win. *)
Definition update (m other : dict) : dict := other ∪ m.

End Py.

(** ** Exceptions and results *)

Inductive exn : Type :=
| AustinError (msg : str)
| AustinTerminated (msg : option str)
| UnicodeDecodeError
| CallbackError (tag : N).

Inductive result (A : Type) : Type :=
| Ok (a : A)
| Raise (e : exn).
Arguments Ok {A} a.
Arguments Raise {A} e.

(** ** The metadata reader *)

(** [StreamReader.readline()] on the child's standard output.  The stream is
    the list of the reads still to come ([lines_of] what the child has yet to
    print); past its end every read yields [b""].  Every read is taken to
    return: a line longer than the reader's limit (64 KiB, as [start] passes
    no [limit]) makes [readline()] raise [ValueError] instead, and such
    streams are outside this model. *)
Definition readline (stream : list bytes) : bytes * list bytes :=
  match stream with
  | [] => ([], [])
  | raw :: stream' => (raw, stream')
  end.

(** The reads a child's whole output gives rise to: each line up to and
    including its newline, and what is left when the output ends without
    one. *)
Fixpoint lines_of (output : bytes) : list bytes :=
  match output with
  | [] => []
  | c :: output' =>
      match c with
      | x0a => [c] :: lines_of output'
      | _ =>
          match lines_of output' with
          | [] => [[c]]
          | line :: lines => (c :: line) :: lines
          end
      end
  end.

Definition marker : str := Py.u "# ".
Definition separator : str := Py.u ": ".

(** The test of line 37 on the decoded, stripped line. *)
Definition is_meta (line : str) : bool :=
  Py.truthy line && Py.startswith line marker.

(** Line 39: the entry a metadata line contributes. *)
Definition meta_entry (line : str) : str * str :=
  let '(key, _, value) := Py.partition (drop 2 line) separator in
  (key, value).

(** The [while True] loop of [_read_meta], with the dictionary built so far.
    At the end of the stream [readline()] yields [b""], which decodes to the
    empty string and leaves the loop (see [_read_meta_loop_unfold]). *)
Fixpoint _read_meta_loop (stream : list bytes) (meta : dict)
  : result dict * list bytes :=
  match stream with
  | [] => (Ok meta, [])
  | raw :: stream' =>
      match Py.decode raw with
      | None => (Raise UnicodeDecodeError, stream')
      | Some text =>
          let line := Py.str_rstrip text in
          if negb (is_meta line) then (Ok meta, stream')
          else
            let '(key, value) := meta_entry line in
            _read_meta_loop stream' (<[key:=value]> meta)
      end
  end.

Definition _read_meta (stream : list bytes) : result dict * list bytes :=
  _read_meta_loop stream ∅.

(** ** The run: its environment, its state and its trace *)

(** What the coroutine does, in program order. *)
Inductive event : Type :=
| EvRunning (flag : bool)      (* [self._running = flag] *)
| EvHeader (meta : dict)       (* [_read_header()] returned [meta] *)
| EvReady                      (* [_ready_callback(...)] is invoked *)
| EvSample (data : bytes)      (* [submit_sample(data)] is invoked *)
| EvFooter (meta : dict)       (* [_read_footer()] returned [meta] *)
| EvTerminate (meta : dict)    (* [_terminate_callback(meta)] is invoked *)
| EvStderr (text : option str) (* [_read_stderr()] returned [text] *)
| EvWait (rcode : Z).          (* [proc.wait()] returned [rcode] *)

(** The outcome of [asyncio.create_subprocess_exec]: the binary is missing,
    or a process whose output pipes are present or not. *)
Inductive spawned : Type :=
| FileNotFoundError
| Process (has_stdout has_stderr : bool).

#[export] Instance spawned_eq_dec : EqDecision spawned.
Proof. solve_decision. Defined.

(** Everything outside the coroutine.  [running_at k] is the value of
    [self._running] read by the loop condition once [k] samples have been
    submitted: the flag is set on line 121 and cleared by whoever asks the run
    to stop.  A callback is modelled by what it raises, if anything. *)
Record world : Type := World {
  spawn_result : spawned;
  stdout_lines : list bytes;
  stderr_read : option bytes;          (* [None]: [wait_for] timed out *)
  exit_code : Z;
  running_at : nat → bool;
  process_info : option exn;           (* [parse_args], [_get_process_info] *)
  ready_callback : option exn;
  submit_sample : nat → bytes → option exn;
  terminate_callback : dict → option exn;
  initial_meta : dict                  (* [self._meta] as the base class left it *)
}.

Record state : Type := State {
  stdout : list bytes;
  _meta : dict;
  trace : list event
}.

Definition with_stdout (stream : list bytes) (s : state) : state :=
  State stream (_meta s) (trace s).
Definition with_meta (meta : dict) (s : state) : state :=
  State (stdout s) meta (trace s).
Definition with_events (evs : list event) (s : state) : state :=
  State (stdout s) (_meta s) (trace s ++ evs).

(** Computations that read and write the state and may raise. *)
Definition M (A : Type) : Type := state → result A * state.

#[export] Instance M_ret : MRet M := λ A a s, (Ok a, s).
#[export] Instance M_bind : MBind M := λ A B f m s,
  match m s with
  | (Ok a, s') => f a s'
  | (Raise e, s') => (Raise e, s')
  end.

(** A step that leaves the state alone. *)
Definition lift {A} (r : result A) : M A := λ s, (r, s).

Definition raise {A} (e : exn) : M A := lift (Raise e).

(** [try: body finally: cleanup].  The cleanup always runs; an exception it
    raises is the one that propagates, in place of the outcome of the body
    (Python keeps an exception replaced in this way only as the
    [__context__] of the new one); otherwise the outcome of the body
    stands. *)
Definition try_finally {A} (body : M A) (cleanup : M unit) : M A := λ s,
  let '(r, s1) := body s in
  match cleanup s1 with
  | (Ok _, s2) => (r, s2)
  | (Raise e, s2) => (Raise e, s2)
  end.

Definition emit (e : event) : M unit := λ s, (Ok tt, with_events [e] s).

(** Calling something that returns or raises. *)
Definition call (outcome : option exn) : M unit :=
  match outcome with
  | None => mret tt
  | Some e => raise e
  end.

(** A reader applied to [self.proc.stdout]. *)
Definition on_stdout {A} (reader : list bytes → result A * list bytes) : M A :=
  λ s, let '(r, rest) := reader (stdout s) in (r, with_stdout rest s).

Definition update_meta (meta : dict) : M unit := λ s,
  (Ok tt, with_meta (Py.update (_meta s) meta) s).

Section Run.

Variable w : world.

Definition _read_stderr : result (option str) :=
  match stderr_read w with
  | None => Ok None
  | Some raw =>
      match Py.decode raw with
      | None => Raise UnicodeDecodeError
      | Some text => Ok (Some (Py.str_rstrip text))
      end
  end.

Definition _read_header : M dict :=
  meta ← on_stdout _read_meta;
  update_meta meta;;
  emit (EvHeader meta);;
  mret meta.

Definition _read_footer : M dict :=
  meta ← on_stdout _read_meta;
  update_meta meta;;
  emit (EvFooter meta);;
  mret meta.

(** Lines 135-140, after [k] samples. *)
Fixpoint _sample_loop (stream : list bytes) (k : nat)
  : list event * (result unit * list bytes) :=
  if negb (running_at w k) then ([], (Ok tt, stream))
  else
    match stream with
    | [] => ([], (Ok tt, []))
    | raw :: stream' =>
        let data := Py.bytes_rstrip raw in
        if negb (Py.truthy data) then ([], (Ok tt, stream'))
        else
          match submit_sample w k data with
          | Some e => ([EvSample data], (Raise e, stream'))
          | None =>
              let '(evs, r) := _sample_loop stream' (S k) in
              (EvSample data :: evs, r)
          end
    end.

Definition sample_loop : M unit := λ s,
  let '(evs, (r, rest)) := _sample_loop (stdout s) 0 in
  (r, with_events evs (with_stdout rest s)).

(** Lines 124-140: the body of the [try]. *)
Definition start_body : M unit :=
  meta ← _read_header;
  if negb (Py.dict_truthy meta)
  then raise (AustinError (Py.u "Austin did not start properly"))
  else
    call (process_info w);;
    emit EvReady;;
    call (ready_callback w);;
    sample_loop.

Definition exit_message (rcode : Z) (stderr : option str) : str :=
  Py.u "(" ++ Py.str_of_int rcode ++ Py.u ") " ++ Py.str_of_optional stderr.

(** Lines 150-153. *)
Definition check_exit (rcode : Z) (stderr : option str) : result unit :=
  if negb (rcode =? 0) then
    if (rcode =? -15) || (rcode =? 15)
    then Raise (AustinTerminated stderr)
    else Raise (AustinError (exit_message rcode stderr))
  else Ok tt.

(** Lines 143-153: the [finally] block. *)
Definition start_cleanup : M unit :=
  emit (EvRunning false);;
  meta ← _read_footer;
  emit (EvTerminate meta);;
  call (terminate_callback w meta);;
  stderr ← lift _read_stderr;
  emit (EvStderr stderr);;
  emit (EvWait (exit_code w));;
  lift (check_exit (exit_code w) stderr).

Definition start : M unit :=
  match spawn_result w with
  | FileNotFoundError =>
      raise (AustinError (Py.u "Austin executable not found."))
  | Process false _ =>
      raise (AustinError (Py.u "Standard output stream is unexpectedly missing"))
  | Process true false =>
      raise (AustinError (Py.u "Standard error stream is unexpectedly missing"))
  | Process true true =>
      emit (EvRunning true);;
      try_finally start_body start_cleanup
  end.

Definition initial : state := State (stdout_lines w) (initial_meta w) [].

Definition run : result unit * state := start initial.

End Run.

(** ** The run, seen from outside *)

(** The state in which the [try] block is entered: line 121 has run. *)
Definition entered (w : world) : state :=
  with_events [EvRunning true] (initial w).

(** The [try] body in that state: how it ends and the state it leaves. *)
Definition body (w : world) : result unit * state := start_body w (entered w).

(** What [_read_meta] makes of the footer, read from the lines the body left
    on the stream. *)
Definition footer (w : world) : result dict * list bytes :=
  _read_meta (stdout (body w).2).

(** The arguments the callbacks were invoked with, in order. *)
Definition terminations (tr : list event) : list dict :=
  omap (λ ev, match ev with EvTerminate meta => Some meta | _ => None end) tr.

Definition samples (tr : list event) : list bytes :=
  omap (λ ev, match ev with EvSample data => Some data | _ => None end) tr.

Definition readies (tr : list event) : list unit :=
  omap (λ ev, match ev with EvReady => Some tt | _ => None end) tr.

Definition waits (tr : list event) : list Z :=
  omap (λ ev, match ev with EvWait rcode => Some rcode | _ => None end) tr.

(** ** The vocabulary of the specification *)

(** The four states of a run (section 3 of the specification), placed at the
    program points of [start]: a run is [NotStarted] until the coroutine
    announces that Austin started correctly (the ready callback, line 128),
    [Running] from there until the [finally] block is entered (line 144),
    [Draining] from there until [proc.wait()] has returned (line 149), and
    [Terminated] after that.  What has happened when each of these points is
    reached (which header has been read, what the sample loop had found) is
    not part of the definition: it is what the theorems on the states
    establish. *)
Inductive RunState : Type := NotStarted | Running | Draining | Terminated.

Definition run_step (st : RunState) (ev : event) : RunState :=
  match ev, st with
  | EvReady, NotStarted => Running
  | EvRunning false, (NotStarted | Running) => Draining
  | EvWait _, _ => Terminated
  | _, _ => st
  end.

Definition run_state_from (st : RunState) (tr : list event) : RunState :=
  foldl run_step st tr.

Definition run_state (tr : list event) : RunState :=
  run_state_from NotStarted tr.

(** The monitor of the invariant "no sample is forwarded outside [Running]":
    it follows the state along the trace and checks it at every sample. *)
Fixpoint samples_while_running (st : RunState) (tr : list event) : bool :=
  match tr with
  | [] => true
  | ev :: tr' =>
      match ev with
      | EvSample _ => match st with Running => true | _ => false end
      | _ => true
      end && samples_while_running (run_step st ev) tr'
  end.

(** Monitors of an order among events: every event that satisfies [later] has
    an event that satisfies [earlier] before it ([seen]: one has occurred). *)
Fixpoint preceded (earlier later : event → bool) (seen : bool)
  (tr : list event) : bool :=
  match tr with
  | [] => true
  | ev :: tr' =>
      (negb (later ev) || seen)
      && preceded earlier later (seen || earlier ev) tr'
  end.

Definition is_header (ev : event) : bool :=
  match ev with EvHeader _ => true | _ => false end.
Definition is_sample (ev : event) : bool :=
  match ev with EvSample _ => true | _ => false end.
Definition is_footer (ev : event) : bool :=
  match ev with EvFooter _ => true | _ => false end.
Definition is_terminate (ev : event) : bool :=
  match ev with EvTerminate _ => true | _ => false end.
Definition is_wait (ev : event) : bool :=
  match ev with EvWait _ => true | _ => false end.

(** The events of the [try] body and of the [finally] block. *)
Inductive body_shape : list event → Prop :=
| body_no_header : body_shape []
| body_header_only (h : dict) : body_shape [EvHeader h]
| body_ready (h : dict) (ds : list bytes) :
    Py.dict_truthy h = true →
    body_shape (EvHeader h :: EvReady :: (EvSample <$> ds)).

Inductive cleanup_shape (rcode : Z) : list event → Prop :=
| cleanup_no_footer : cleanup_shape rcode []
| cleanup_no_wait (f : dict) : cleanup_shape rcode [EvFooter f; EvTerminate f]
| cleanup_done (f : dict) (text : option str) :
    cleanup_shape rcode [EvFooter f; EvTerminate f; EvStderr text; EvWait rcode].

(** The acceptance test as the specification words it: strip the trailing
    line ending, then ask for a non-empty line that begins with the marker. *)
Definition is_line_ending (c : N) : bool := ((c =? 10) || (c =? 13))%N.

Definition strip_line_ending (text : str) : str :=
  Py.rstrip_by is_line_ending text.

Definition spec_is_meta (text : str) : bool :=
  let line := strip_line_ending text in
  Py.truthy line && Py.startswith line marker.

(** A sample as the specification words it: the line without its trailing
    newline, and otherwise as it was read. *)
Definition strip_newline (raw : bytes) : bytes :=
  match reverse raw with
  | x0a :: r => reverse r
  | _ => raw
  end.

(** A line of the form ["# key: value\n"]: the key holds no [": "] and the
    value is not empty and does not end in whitespace. *)
Definition well_formed_line (raw : bytes) (key value : str) : Prop :=
  Py.decode raw = Some (marker ++ key ++ separator ++ value ++ [10%N])
  ∧ Py.contains key separator = false
  ∧ Py.truthy value = true
  ∧ Py.str_rstrip value = value.

(** A line the reader accepts: it decodes and passes the test of line 37. *)
Definition is_metadata_line (raw : bytes) : bool :=
  match Py.decode raw with
  | Some text => is_meta (Py.str_rstrip text)
  | None => false
  end.

(** A line that ends a metadata block: it decodes and is not metadata. *)
Definition is_terminator (raw : bytes) : bool :=
  match Py.decode raw with
  | Some text => negb (is_meta (Py.str_rstrip text))
  | None => false
  end.

(** An empty header block: the stream ends at once, or its first line is
    already a terminator. *)
Definition empty_header (stream : list bytes) : bool :=
  match stream with
  | [] => true
  | raw :: _ => is_terminator raw
  end.

(** The dictionary after the entries [kvs] have been assigned in order. *)
Definition assign_all (kvs : list (list N * list N)) (meta : dict) : dict :=
  foldl (λ m kv, <[kv.1 := kv.2]> m) meta kvs.

(** ** Worlds used as examples *)

(** A child that was spawned with both pipes, a host whose callbacks return
    and that never asks the run to stop. *)
Definition quiet_world (lines : list bytes) (stderr : option bytes) (rcode : Z)
  : world :=
  World (Process true true) lines stderr rcode
        (λ _, true) None None (λ _ _, None) (λ _, None) ∅.

(** The scenario of section 8 of the specification. *)
Definition scenario : world :=
  quiet_world
    [Py.b "# key: value" ++ Py.nl; Py.b "# foo: bar" ++ Py.nl; Py.nl;
     Py.b "sample-A" ++ Py.nl; Py.b "sample-B" ++ Py.nl]
    (Some []) 0.

(** A run whose footer position holds a line that is not UTF-8. *)
Definition undecodable_footer : world :=
  quiet_world
    [Py.b "# key: value" ++ Py.nl; Py.nl; Py.b "sample-A" ++ Py.nl; Py.nl;
     [xff; x0a]]
    (Some []) 0.

(** A run whose header and footer both give [duration]. *)
Definition overlapping : world :=
  quiet_world
    [Py.b "# mode: wall" ++ Py.nl; Py.b "# duration: 0" ++ Py.nl; Py.nl;
     Py.b "sample-A" ++ Py.nl; Py.nl; Py.b "# duration: 12" ++ Py.nl]
    (Some []) 0.

(** A child that prints no header, writes [boom] to its standard error and
    exits with [rcode]. *)
Definition failing (rcode : Z) : world :=
  quiet_world [] (Some (Py.b "boom" ++ Py.nl)) rcode.

(** The scenario of section 8 with a child that exits with [rcode] and a
    diagnostic read that times out. *)
Definition silent (rcode : Z) : world :=
  quiet_world (stdout_lines scenario) None rcode.

(** The scenario of section 8 with a sink that raises on the second
    sample. *)
Definition raising_sink : world :=
  World (Process true true) (stdout_lines scenario) (Some []) 0
        (λ _, true) None None
        (λ k _, if (k =? 1)%nat then Some (CallbackError 7) else None)
        (λ _, None) ∅.

(** ** Further vocabulary *)

(** The lines one call of the metadata reader takes off the stream: metadata
    lines, and then the one line that ended the block, unless the stream
    ended first ([rest]: what the call left on the stream). *)
Definition block_read (read rest : list bytes) : Prop :=
  ∃ accepted : list bytes,
    forallb is_metadata_line accepted = true
    ∧ ((read = accepted ∧ rest = [])
       ∨ ∃ t : bytes, is_metadata_line t = false ∧ read = accepted ++ [t]).

(** The values [self._running] was assigned, in order. *)
Definition flags (tr : list event) : list bool :=
  omap (λ ev, match ev with EvRunning flag => Some flag | _ => None end) tr.

Definition is_ready (ev : event) : bool :=
  match ev with EvReady => true | _ => false end.

(** The stripped text of a metadata line, rebuilt from its entry. *)
Definition render_entry (key value : str) : str :=
  marker ++ key ++ (if Py.truthy value then separator ++ value else []).

(** Output that is ASCII throughout. *)
Definition is_ascii (raw : bytes) : bool :=
  forallb (λ c, (Byte.to_N c <? 128)%N) raw.

(** The scenario of section 8 with a host that asks the run to stop once the
    first sample has been forwarded. *)
Definition stopped_early : world :=
  World (Process true true) (stdout_lines scenario) (Some []) 0
        (λ k, (k <? 1)%nat) None None (λ _ _, None) (λ _, None) ∅.

(** The scenario of section 8 with a termination callback that raises. *)
Definition raising_terminate : world :=
  World (Process true true) (stdout_lines scenario) (Some []) (-15)
        (λ _, true) None None (λ _ _, None) (λ _, Some (CallbackError 3)) ∅.

(** The scenario of section 8 with a ready callback that raises. *)
Definition raising_ready : world :=
  World (Process true true) (stdout_lines scenario) (Some []) 0
        (λ _, true) None (Some (CallbackError 5)) (λ _ _, None)
        (λ _, None) ∅.

(** The scenario of section 8 with diagnostic output that is not UTF-8. *)
Definition undecodable_stderr : world :=
  quiet_world (stdout_lines scenario) (Some [xc3; x28]) 1.

(** A header whose second line is not UTF-8, on an object that already holds
    an entry. *)
Definition undecodable_header : world :=
  World (Process true true)
        [Py.b "# key: value" ++ Py.nl; [x23; x20; xff; x0a]; Py.nl;
         Py.b "sample-A" ++ Py.nl]
        (Some []) 0 (λ _, true) None None (λ _ _, None) (λ _, None)
        {[ Py.u "old" := Py.u "entry" ]}.

(** A child that prints no blank line between its header and its samples. *)
Definition no_blank_line : world :=
  quiet_world
    [Py.b "# key: value" ++ Py.nl; Py.b "sample-A" ++ Py.nl;
     Py.b "sample-B" ++ Py.nl]
    (Some []) 0.

(** ** Tactics *)

(** Unfolds the run down to its steps. *)
Ltac run_unfold :=
  unfold body, footer, run, start, try_finally, start_body, start_cleanup,
    _read_header, _read_footer, sample_loop, entered, initial, on_stdout,
    update_meta, emit, call, raise, lift, mbind, M_bind, mret, M_ret,
    with_events, with_stdout, with_meta in *;
  cbn [stdout _meta trace fst snd] in *.

(** Splits the trace of a launched run into the events of the body and of
    the cleanup, case by case. *)
Ltac shapes H :=
  let Hb := fresh "Hb" in
  let Hc := fresh "Hc" in
  destruct H as (?evs & ?evs' & -> & -> & Hb & Hc);
  destruct Hb as [|?h|?h ?ds ?Hh]; destruct Hc as [|?f|?f ?text];
  cbn -[preceded samples_while_running].

(** * Facts about the Python primitives *)

Section Rstrip.

Context {A : Type} (sp : A → bool).

Lemma rstrip_by_spaces (ws : list A) :
  forallb sp ws = true → Py.rstrip_by sp ws = [].
Proof.
  induction ws as [|c ws IH]; simpl; [done|].
  intros [Hc Hws]%andb_prop. by rewrite IH, Hc.
Qed.

Lemma rstrip_by_app_spaces (s ws : list A) :
  forallb sp ws = true → Py.rstrip_by sp (s ++ ws) = Py.rstrip_by sp s.
Proof.
  intros Hws. induction s as [|c s IH]; simpl.
  - by apply rstrip_by_spaces.
  - by rewrite IH.
Qed.

(** What is removed is a run of whitespace at the end. *)
Lemma rstrip_by_split (s : list A) :
  ∃ ws, s = Py.rstrip_by sp s ++ ws ∧ forallb sp ws = true.
Proof.
  induction s as [|c s (ws & E & Hws)]; simpl.
  - by exists [].
  - destruct (Py.rstrip_by sp s) as [|t0 t] eqn:R.
    + simpl in E. subst s. destruct (sp c) eqn:Hc.
      * exists (c :: ws). simpl. by rewrite Hc, Hws.
      * by exists ws.
    + exists ws. split; [|done]. simpl. by f_equal.
Qed.

(** What is left does not end in whitespace. *)
Lemma rstrip_by_last (s : list A) (c : A) :
  last (Py.rstrip_by sp s) = Some c → sp c = false.
Proof.
  induction s as [|a s IH]; simpl; [done|].
  destruct (Py.rstrip_by sp s) as [|t0 t] eqn:R.
  - destruct (sp a) eqn:Ha; simpl; [done|]. by intros [= <-].
  - intros H. apply IH. exact H.
Qed.

Lemma rstrip_by_id (s : list A) :
  (∀ c, last s = Some c → sp c = false) → Py.rstrip_by sp s = s.
Proof.
  induction s as [|a s IH]; simpl; [done|]. intros H.
  destruct s as [|a' s].
  - simpl. by rewrite (H a eq_refl).
  - rewrite IH; [done|]. intros c Hc. by apply H.
Qed.

Lemma rstrip_by_idemp (s : list A) :
  Py.rstrip_by sp (Py.rstrip_by sp s) = Py.rstrip_by sp s.
Proof. apply rstrip_by_id. intros c. apply rstrip_by_last. Qed.

(** A suffix of a stripped text is stripped. *)
Lemma rstrip_by_suffix (x d : list A) :
  Py.rstrip_by sp (x ++ d) = x ++ d → Py.rstrip_by sp d = d.
Proof.
  induction x as [|c x IH]; simpl; [done|].
  destruct (Py.rstrip_by sp (x ++ d)) as [|t0 t] eqn:R.
  - destruct (sp c); [done|]. intros [= E].
    symmetry in E. apply app_eq_nil in E as [_ ->]. done.
  - intros [= E]. by apply IH.
Qed.

(** Text that ends in a stripped, non-empty word is stripped. *)
Lemma rstrip_by_app_word (x v : list A) :
  v ≠ [] → Py.rstrip_by sp v = v → Py.rstrip_by sp (x ++ v) = x ++ v.
Proof.
  intros Hv E. induction x as [|c x IH]; simpl; [done|].
  rewrite IH. destruct (x ++ v) eqn:E'; [|done].
  apply app_eq_nil in E' as [_ ->]. done.
Qed.

End Rstrip.

Lemma startswith_split (s prefix : str) :
  Py.startswith s prefix = true → s = prefix ++ drop (length prefix) s.
Proof.
  revert s. induction prefix as [|p prefix IH]; intros s; simpl.
  - by rewrite drop_0.
  - destruct s as [|c s]; [done|].
    intros [Hc Hs]%andb_prop. apply N.eqb_eq in Hc as ->.
    simpl. f_equal. by apply IH.
Qed.

Lemma startswith_app (prefix rest : str) :
  Py.startswith (prefix ++ rest) prefix = true.
Proof.
  induction prefix as [|p prefix IH]; simpl; [done|].
  by rewrite N.eqb_refl, IH.
Qed.

(** [partition] cuts its argument in three. *)
Lemma partition_concat (s sep before found after : str) :
  Py.partition s sep = (before, found, after) → s = before ++ found ++ after.
Proof.
  revert before found after. induction s as [|c s IH]; intros a f d; simpl.
  - by intros [= <- <- <-].
  - destruct (Py.startswith (c :: s) sep) eqn:Hs.
    + intros [= <- <- <-]. rewrite app_nil_l. by apply startswith_split.
    + destruct (Py.partition s sep) as [[a' f'] d'].
      intros [= <- <- <-]. simpl. f_equal. by apply IH.
Qed.

(** [partition] cuts at the first occurrence of the separator, and returns the
    whole text with two empty strings when there is none. *)
Lemma partition_first (s sep before found after : str) :
  Py.partition s sep = (before, found, after) →
  (found = sep
   ∧ ∀ i, (i < length before)%nat → Py.startswith (drop i s) sep = false)
  ∨ (before = s ∧ found = [] ∧ after = [] ∧ Py.contains s sep = false).
Proof.
  revert before found after. induction s as [|c s IH]; intros a f d; simpl.
  - intros [= <- <- <-]. destruct sep; [left|right]; repeat split; simpl; lia.
  - destruct (Py.startswith (c :: s) sep) eqn:Hs.
    + intros [= <- <- <-]. left. split; [done|]. simpl. lia.
    + destruct (Py.partition s sep) as [[a' f'] d'] eqn:P.
      intros [= <- <- <-].
      destruct (IH _ _ _ eq_refl) as [[-> Hi]|(-> & -> & -> & Hc)].
      * left. split; [done|]. intros [|i] Hlt; simpl; [done|].
        apply Hi. simpl in Hlt. lia.
      * right. simpl. by rewrite Hc.
Qed.

Lemma marker_eq : marker = [35; 32]%N.
Proof. reflexivity. Qed.

Lemma separator_eq : separator = [58; 32]%N.
Proof. reflexivity. Qed.

(** A key free of [": "] followed by [": "] and a value is cut back into the
    key and the value. *)
Lemma partition_key_value (key value : str) :
  Py.contains key separator = false →
  Py.partition (key ++ separator ++ value) separator = (key, separator, value).
Proof.
  rewrite separator_eq.
  induction key as [|c key IH]; [done|].
  intros [Hs Hc]%orb_false_elim. specialize (IH Hc).
  change ((c :: key) ++ [58; 32]%N ++ value)
    with (c :: (key ++ [58; 32]%N ++ value)).
  cbn [Py.partition]. rewrite IH.
  assert (Py.startswith (c :: key ++ [58; 32]%N ++ value) [58; 32]%N = false)
    as ->; [|done].
  revert Hs. cbn. destruct (N.eqb c 58); [|done].
  destruct key as [|c' key]; cbn; [done|].
  by destruct (N.eqb c' 32).
Qed.

(** * Facts about the stream *)

(** The reads of an output are its bytes, cut after each newline. *)
Lemma lines_of_concat (output : bytes) : concat (lines_of output) = output.
Proof.
  induction output as [|c output IH]; [done|].
  assert (concat (match lines_of output with
                  | [] => [[c]]
                  | line :: lines => (c :: line) :: lines
                  end) = c :: output) as Hother.
  { destruct (lines_of output) as [|line lines]; simpl in *; by rewrite <- IH. }
  destruct c; try exact Hother. simpl. by rewrite IH.
Qed.

Lemma lines_of_nonempty (output : bytes) :
  Forall (λ line, line ≠ []) (lines_of output).
Proof.
  induction output as [|c output IH]; [by constructor|].
  assert (Forall (λ line, line ≠ [])
            (match lines_of output with
             | [] => [[c]]
             | line :: lines => (c :: line) :: lines
             end)) as Hother.
  { destruct (lines_of output) as [|line lines].
    - by repeat constructor.
    - inversion IH; subst. by constructor. }
  destruct c; try exact Hother. simpl. by constructor.
Qed.

(** The stream of the scenario of section 8 is the output
    ["# key: value\n# foo: bar\n\nsample-A\nsample-B\n"]. *)
Lemma scenario_stream :
  stdout_lines scenario
  = lines_of (Py.b "# key: value" ++ Py.nl ++ Py.b "# foo: bar" ++ Py.nl
              ++ Py.nl ++ Py.b "sample-A" ++ Py.nl ++ Py.b "sample-B" ++ Py.nl).
Proof. by vm_compute. Qed.

(** * Facts about the metadata reader *)

(** One turn of the loop as the source writes it: read a line, decode and
    strip it, test it.  At the end of the stream the line read is [b""]. *)
Lemma _read_meta_loop_unfold (stream : list bytes) (meta : dict) :
  _read_meta_loop stream meta =
    let '(raw, stream') := readline stream in
    match Py.decode raw with
    | None => (Raise UnicodeDecodeError, stream')
    | Some text =>
        let line := Py.str_rstrip text in
        if negb (is_meta line) then (Ok meta, stream')
        else
          let '(key, value) := meta_entry line in
          _read_meta_loop stream' (<[key:=value]> meta)
    end.
Proof. by destruct stream. Qed.

(** A well-formed line is stripped to ["# key: value"] ... *)
Lemma well_formed_line_stripped (raw : bytes) (key value : str) :
  well_formed_line raw key value →
  ∃ text, Py.decode raw = Some text
          ∧ Py.str_rstrip text = marker ++ key ++ separator ++ value.
Proof.
  intros (Hd & _ & Hv & Hs). eexists. split; [exact Hd|].
  unfold Py.str_rstrip.
  replace (marker ++ key ++ separator ++ value ++ [10%N])
    with ((marker ++ key ++ separator ++ value) ++ [10%N])
    by by rewrite <- !app_assoc.
  rewrite rstrip_by_app_spaces by done.
  replace (marker ++ key ++ separator ++ value)
    with ((marker ++ key ++ separator) ++ value)
    by by rewrite <- !app_assoc.
  apply rstrip_by_app_word; [|exact Hs]. by destruct value.
Qed.

(** ... and contributes the entry [key: value]. *)
Lemma read_meta_line (raw : bytes) (key value : str) (stream : list bytes)
  (meta : dict) :
  well_formed_line raw key value →
  _read_meta_loop (raw :: stream) meta
  = _read_meta_loop stream (<[key:=value]> meta).
Proof.
  intros Hwf. destruct (well_formed_line_stripped _ _ _ Hwf) as (text & Hd & Hs).
  destruct Hwf as (_ & Hk & _ & _).
  cbn [_read_meta_loop]. rewrite Hd. cbv zeta. rewrite Hs.
  unfold is_meta, meta_entry. rewrite startswith_app.
  change (drop 2 (marker ++ key ++ separator ++ value))
    with (key ++ separator ++ value).
  by rewrite partition_key_value.
Qed.

Lemma read_meta_block (block : list bytes) (kvs : list (list N * list N))
  (stream : list bytes)
  (meta : dict) :
  Forall2 (λ raw kv, well_formed_line raw kv.1 kv.2) block kvs →
  _read_meta_loop (block ++ stream) meta
  = _read_meta_loop stream (assign_all kvs meta).
Proof.
  intros H. revert meta.
  induction H as [|raw kv block kvs Hwf _ IH]; intros meta; [done|].
  rewrite <- app_comm_cons, (read_meta_line _ _ _ _ _ Hwf). apply IH.
Qed.

Lemma read_meta_terminator (t : bytes) (stream : list bytes) (meta : dict) :
  is_terminator t = true → _read_meta_loop (t :: stream) meta = (Ok meta, stream).
Proof.
  unfold is_terminator. cbn [_read_meta_loop].
  destruct (Py.decode t) as [text|]; [|done]. by intros ->.
Qed.

Lemma assign_all_snoc (kvs : list (list N * list N)) (kv : list N * list N)
  (meta : dict) :
  assign_all (kvs ++ [kv]) meta = <[kv.1 := kv.2]> (assign_all kvs meta).
Proof. unfold assign_all. by rewrite foldl_app. Qed.

Lemma assign_all_size_le (kvs : list (list N * list N)) (meta : dict) :
  (size (assign_all kvs meta) ≤ length kvs + size meta)%nat.
Proof.
  induction kvs as [|kv kvs IH] using rev_ind; [simpl; lia|].
  rewrite assign_all_snoc, length_app, map_size_insert. simpl.
  destruct (_ !! _); unfold id; lia.
Qed.

Lemma assign_all_dom (kvs : list (list N * list N)) (meta : dict) :
  dom (assign_all kvs meta) = list_to_set kvs.*1 ∪ dom meta.
Proof.
  revert meta. induction kvs as [|kv kvs IH]; intros meta; simpl.
  - by rewrite (left_id_L ∅ (∪)).
  - unfold assign_all in *. simpl. rewrite IH, dom_insert_L.
    by rewrite (assoc_L (∪)), (comm_L (∪) (list_to_set _)).
Qed.

Lemma assign_all_size (kvs : list (list N * list N)) :
  NoDup kvs.*1 → size (assign_all kvs ∅) = length kvs.
Proof.
  intros Hnd. rewrite <- size_dom, assign_all_dom, dom_empty_L, (right_id_L ∅ (∪)).
  by rewrite size_list_to_set, length_fmap.
Qed.

Lemma assign_all_lookup (kvs : list (list N * list N)) (kv : list N * list N)
  (meta : dict) :
  NoDup kvs.*1 → kv ∈ kvs → assign_all kvs meta !! kv.1 = Some kv.2.
Proof.
  induction kvs as [|kv' kvs IH] using rev_ind; [by intros _ ?%elem_of_nil|].
  rewrite fmap_app, assign_all_snoc. intros (Hnd & Hfresh & _)%NoDup_app.
  intros [Hin| ->%list_elem_of_singleton]%elem_of_app.
  - rewrite lookup_insert_ne; [by apply IH|].
    intros E. apply (Hfresh kv.1).
    + by apply list_elem_of_fmap_2.
    + rewrite <- E. simpl. by apply list_elem_of_singleton.
  - by rewrite lookup_insert_eq.
Qed.

(** The value of an entry is a suffix of the stripped line. *)
Lemma meta_entry_value_stripped (text key value : str) :
  meta_entry (Py.str_rstrip text) = (key, value) → Py.str_rstrip value = value.
Proof.
  unfold meta_entry.
  destruct (Py.partition _ _) as [[k f] v] eqn:P. intros [= -> ->].
  apply partition_concat in P.
  apply (rstrip_by_suffix _ (key ++ f)). rewrite <- app_assoc, <- P.
  apply (rstrip_by_suffix _ (take 2 (Py.str_rstrip text))).
  rewrite take_drop. apply rstrip_by_idemp.
Qed.

Lemma read_meta_values_stripped (stream rest : list bytes) (meta found : dict) :
  _read_meta_loop stream meta = (Ok found, rest) →
  (∀ key value, meta !! key = Some value → Py.str_rstrip value = value) →
  ∀ key value, found !! key = Some value → Py.str_rstrip value = value.
Proof.
  revert meta. induction stream as [|raw stream IH]; intros meta; simpl.
  - by intros [= <- <-].
  - destruct (Py.decode raw) as [text|]; [|done].
    destruct (is_meta _); simpl; [|by intros [= <- <-]].
    destruct (meta_entry _) as [k v] eqn:E. intros Hrun Hmeta.
    apply (IH _ Hrun). intros key value.
    destruct (decide (k = key)) as [->|Hne].
    + rewrite lookup_insert_eq. intros [= <-].
      by apply (meta_entry_value_stripped text key).
    + rewrite lookup_insert_ne by done. apply Hmeta.
Qed.

(** What the reader leaves on the stream is a suffix of what it found. *)
Lemma read_meta_suffix (stream rest : list bytes) (meta : dict)
  (r : result dict) :
  _read_meta_loop stream meta = (r, rest) → ∃ read, stream = read ++ rest.
Proof.
  revert meta. induction stream as [|raw stream IH]; intros meta; simpl.
  - intros [= <- <-]. by exists [].
  - destruct (Py.decode raw) as [text|]; [|intros [= <- <-]; by exists [raw]].
    destruct (is_meta _); simpl; [|intros [= <- <-]; by exists [raw]].
    destruct (meta_entry _) as [k v]. intros (read & ->)%IH.
    by exists (raw :: read).
Qed.

(** A read that returns has consumed the metadata lines it accepted and the
    one line that ended the block, or the whole stream. *)
Lemma read_meta_consumes (stream rest : list bytes) (meta found : dict) :
  _read_meta_loop stream meta = (Ok found, rest) →
  ∃ accepted,
    forallb is_metadata_line accepted = true
    ∧ ((stream = accepted ∧ rest = [])
       ∨ ∃ t, is_terminator t = true ∧ stream = accepted ++ t :: rest).
Proof.
  revert meta. induction stream as [|raw stream IH]; intros meta; simpl.
  - intros [= <- <-]. exists []. split; [done|by left].
  - destruct (Py.decode raw) as [text|] eqn:Hd; [|done].
    destruct (is_meta _) eqn:Hm; simpl.
    + destruct (meta_entry _) as [k v].
      intros (accepted & Hacc & Hcut)%IH. exists (raw :: accepted). split.
      * cbn [forallb]. rewrite Hacc. unfold is_metadata_line.
        by rewrite Hd, Hm.
      * destruct Hcut as [[-> ->]|(t & Ht & ->)]; [by left|].
        right. by exists t.
    + intros [= <- <-]. exists []. split; [done|]. right. exists raw.
      unfold is_terminator. by rewrite Hd, Hm.
Qed.

(** C6, as amended.  The metadata reader decodes each line and strips ALL its
    trailing whitespace (not only the line ending); it accepts the line iff
    what is left is non-empty and begins with ["# "], and it cuts an accepted
    line once, at the first [": "], into the key (marker removed) and the
    value (empty when there is no [": "]).  For a block of N well-formed
    ["# key: value"] lines followed by a terminator line it returns the
    entries assigned in order, at most N of them and exactly N when the keys
    are pairwise distinct (a repeated key keeps one entry); it consumes the
    terminator line (or meets the end of the stream) and leaves exactly the
    lines after it on the stream: whatever the stream, a read that returns
    has consumed the lines it accepted and one terminator line, or the whole
    stream. *)
Theorem read_meta_contract (block : list bytes) (kvs : list (list N * list N))
  (t : bytes) (rest : list bytes) :
  Forall2 (λ raw kv, well_formed_line raw kv.1 kv.2) block kvs →
  is_terminator t = true →
  _read_meta (block ++ t :: rest) = (Ok (assign_all kvs ∅), rest)
  ∧ _read_meta block = (Ok (assign_all kvs ∅), [])
  ∧ (size (assign_all kvs ∅) ≤ length block)%nat
  ∧ (NoDup kvs.*1 →
     size (assign_all kvs ∅) = length block
     ∧ ∀ kv, kv ∈ kvs → assign_all kvs ∅ !! kv.1 = Some kv.2)
  ∧ (∀ (raw : bytes) (text : str) (stream : list bytes) (meta : dict),
       Py.decode raw = Some text →
       _read_meta_loop (raw :: stream) meta
       = if Py.truthy (Py.str_rstrip text)
            && Py.startswith (Py.str_rstrip text) marker
         then _read_meta_loop stream
                (<[(meta_entry (Py.str_rstrip text)).1
                   := (meta_entry (Py.str_rstrip text)).2]> meta)
         else (Ok meta, stream))
  ∧ (∀ line key value : str,
       meta_entry line = (key, value) →
       (drop 2 line = key ++ separator ++ value
        ∧ ∀ i, (i < length key)%nat →
               Py.startswith (drop i (drop 2 line)) separator = false)
       ∨ (key = drop 2 line ∧ value = []
          ∧ Py.contains (drop 2 line) separator = false))
  ∧ (∀ (stream left : list bytes) (found : dict),
       _read_meta stream = (Ok found, left) →
       ∃ accepted,
         forallb is_metadata_line accepted = true
         ∧ ((stream = accepted ∧ left = [])
            ∨ ∃ t', is_terminator t' = true
                    ∧ stream = accepted ++ t' :: left)).
Proof.
  intros Hblock Hterm. pose proof (Forall2_length _ _ _ Hblock) as Hlen.
  split; [|split; [|split; [|split; [|split; [|split]]]]].
  - unfold _read_meta. rewrite (read_meta_block _ _ _ _ Hblock).
    by apply read_meta_terminator.
  - unfold _read_meta. rewrite <- (app_nil_r block) at 1.
    by rewrite (read_meta_block _ _ _ _ Hblock).
  - pose proof (assign_all_size_le kvs ∅) as Hle.
    rewrite map_size_empty in Hle. lia.
  - intros Hnd. split; [rewrite Hlen; by apply assign_all_size|].
    intros kv Hin. by apply assign_all_lookup.
  - intros raw text stream meta Hd. cbn [_read_meta_loop]. rewrite Hd.
    cbv zeta. fold (is_meta (Py.str_rstrip text)).
    destruct (is_meta _); simpl; [|done]. by destruct (meta_entry _).
  - intros line key value. unfold meta_entry.
    destruct (Py.partition _ _) as [[k f] v] eqn:P. intros [= -> ->].
    pose proof (partition_concat _ _ _ _ _ P) as Hcat.
    destruct (partition_first _ _ _ _ _ P) as [[-> Hfirst]|(-> & -> & -> & Hno)].
    + by left.
    + by right.
  - intros stream left found. apply read_meta_consumes.
Qed.

(** The section 8 header, read by [read_meta_contract]. *)
Lemma read_meta_contract_witness :
  _read_meta ([Py.b "# key: value" ++ Py.nl; Py.b "# foo: bar" ++ Py.nl]
              ++ Py.nl :: [Py.b "sample-A" ++ Py.nl])
  = (Ok (assign_all [(Py.u "key", Py.u "value"); (Py.u "foo", Py.u "bar")] ∅),
     [Py.b "sample-A" ++ Py.nl]).
Proof.
  refine (proj1 (read_meta_contract _ _ _ _ _ _)).
  - repeat constructor; vm_compute; congruence.
  - reflexivity.
Defined.

(** C6 as stated fails twice.  The line [b"# \n"] is non-empty and begins
    with the marker once its line ending is gone, yet the reader takes it for
    the terminator and leaves the metadata line after it unread; and a block
    of two well-formed lines with one key yields one entry, not two. *)
Lemma read_meta_counterexample :
  (Py.decode (Py.b "# " ++ Py.nl) = Some (Py.u "# " ++ [10%N])
   ∧ spec_is_meta (Py.u "# " ++ [10%N]) = true
   ∧ _read_meta [Py.b "# " ++ Py.nl; Py.b "# key: value" ++ Py.nl]
     = (Ok ∅, [Py.b "# key: value" ++ Py.nl]))
  ∧ (well_formed_line (Py.b "# a: 1" ++ Py.nl) (Py.u "a") (Py.u "1")
     ∧ well_formed_line (Py.b "# a: 2" ++ Py.nl) (Py.u "a") (Py.u "2")
     ∧ _read_meta [Py.b "# a: 1" ++ Py.nl; Py.b "# a: 2" ++ Py.nl; Py.nl]
       = (Ok {[ Py.u "a" := Py.u "2" ]}, [])
     ∧ size ({[ Py.u "a" := Py.u "2" ]} : dict) = 1%nat).
Proof. repeat split; vm_compute; congruence. Qed.

(** C10.  A line made of the marker followed only by whitespace ends the
    block: the reader records nothing for it and stops, because everything
    after the ["#"] is stripped before the marker test.  And no value the
    reader stores ends in whitespace. *)
Theorem marker_only_line_ends_block (raw : bytes) (ws : str)
  (stream : list bytes) (meta : dict) :
  Py.decode raw = Some (marker ++ ws) →
  forallb Py.str_isspace ws = true →
  _read_meta_loop (raw :: stream) meta = (Ok meta, stream)
  ∧ Py.str_rstrip (marker ++ ws) = Py.u "#"
  ∧ ∀ (lines left : list bytes) (found : dict) (key value : str),
      _read_meta lines = (Ok found, left) →
      found !! key = Some value → Py.str_rstrip value = value.
Proof.
  intros Hd Hws.
  assert (Py.str_rstrip (marker ++ ws) = Py.u "#") as Hs.
  { change (marker ++ ws) with ([35%N] ++ 32%N :: ws).
    unfold Py.str_rstrip. rewrite rstrip_by_app_spaces; [done|].
    simpl. by rewrite Hws. }
  repeat split.
  - cbn [_read_meta_loop]. rewrite Hd. cbv zeta. by rewrite Hs.
  - exact Hs.
  - intros lines left found key value Hrun.
    apply (read_meta_values_stripped _ _ _ _ Hrun). intros k v.
    by rewrite lookup_empty.
Qed.

(** The line [b"#   \n"] of the claim, and the values of a block whose lines
    end in spaces. *)
Lemma marker_only_line_ends_block_witness :
  _read_meta_loop [Py.b "#   " ++ Py.nl; Py.b "# key: value" ++ Py.nl] ∅
  = (Ok ∅, [Py.b "# key: value" ++ Py.nl])
  ∧ Py.str_rstrip (Py.u "value") = Py.u "value".
Proof.
  pose proof (marker_only_line_ends_block (Py.b "#   " ++ Py.nl)
                [32%N; 32%N; 10%N] [Py.b "# key: value" ++ Py.nl] ∅
                eq_refl eq_refl) as (Hstop & _ & Hvalues).
  split; [exact Hstop|].
  apply (Hvalues [Py.b "# key: value  " ++ Py.nl] [] {[ Py.u "key" := Py.u "value" ]}
           (Py.u "key")).
  - vm_compute. reflexivity.
  - vm_compute. reflexivity.
Defined.

(** * Facts about the run *)

(** One turn of the sample loop as the source writes it.  At the end of the
    stream the line read is [b""], which leaves the loop. *)
Lemma _sample_loop_unfold (w : world) (stream : list bytes) (k : nat) :
  _sample_loop w stream k =
    if negb (running_at w k) then ([], (Ok tt, stream))
    else
      let '(raw, stream') := readline stream in
      let data := Py.bytes_rstrip raw in
      if negb (Py.truthy data) then ([], (Ok tt, stream'))
      else
        match submit_sample w k data with
        | Some e => ([EvSample data], (Raise e, stream'))
        | None =>
            let '(evs, r) := _sample_loop w stream' (S k) in
            (EvSample data :: evs, r)
        end.
Proof. destruct stream; simpl; by destruct (running_at w k). Qed.

(** The sample loop submits samples and does nothing else. *)
Lemma sample_loop_samples (w : world) (stream : list bytes) (k : nat) :
  ∃ ds, (_sample_loop w stream k).1 = EvSample <$> ds.
Proof.
  revert k. induction stream as [|raw stream IH]; intros k; simpl.
  - exists []. by destruct (running_at w k).
  - destruct (running_at w k); simpl; [|by exists []].
    destruct (Py.truthy _); simpl; [|by exists []].
    destruct (submit_sample w k _); [by exists [Py.bytes_rstrip raw]|].
    destruct (IH (S k)) as [ds Hds].
    destruct (_sample_loop w stream (S k)) as [evs r]. simpl in *. subst evs.
    by exists (Py.bytes_rstrip raw :: ds).
Qed.

(** The [try] body, step by step. *)
Lemma body_eq (w : world) :
  body w =
    match _read_meta (stdout_lines w) with
    | (Raise e, rest) => (Raise e, State rest (initial_meta w) [EvRunning true])
    | (Ok h, rest) =>
        let meta := Py.update (initial_meta w) h in
        if Py.dict_truthy h then
          match process_info w with
          | Some e => (Raise e, State rest meta [EvRunning true; EvHeader h])
          | None =>
              match ready_callback w with
              | Some e =>
                  (Raise e, State rest meta [EvRunning true; EvHeader h; EvReady])
              | None =>
                  let '(evs, (r, rest')) := _sample_loop w rest 0 in
                  (r, State rest' meta
                        ([EvRunning true; EvHeader h; EvReady] ++ evs))
              end
          end
        else
          (Raise (AustinError (Py.u "Austin did not start properly")),
           State rest meta [EvRunning true; EvHeader h])
    end.
Proof.
  run_unfold. destruct (_read_meta (stdout_lines w)) as [[h|e] rest]; [|done].
  cbn [stdout _meta trace]. destruct (Py.dict_truthy h); simpl; [|done].
  destruct (process_info w); [done|]. destruct (ready_callback w); [done|].
  cbn [stdout _meta trace].
  by destruct (_sample_loop w rest 0) as [evs [r rest']].
Qed.

(** The [finally] block, step by step. *)
Lemma start_cleanup_eq (w : world) (s : state) :
  start_cleanup w s =
    match _read_meta (stdout s) with
    | (Raise e, rest) =>
        (Raise e, State rest (_meta s) (trace s ++ [EvRunning false]))
    | (Ok f, rest) =>
        let meta := Py.update (_meta s) f in
        let tr := trace s ++ [EvRunning false; EvFooter f; EvTerminate f] in
        match terminate_callback w f with
        | Some e => (Raise e, State rest meta tr)
        | None =>
            match _read_stderr w with
            | Raise e => (Raise e, State rest meta tr)
            | Ok text =>
                (check_exit (exit_code w) text,
                 State rest meta
                   (trace s ++ [EvRunning false; EvFooter f; EvTerminate f;
                                EvStderr text; EvWait (exit_code w)]))
            end
        end
    end.
Proof.
  run_unfold. destruct (_read_meta (stdout s)) as [[f|e] rest]; [|done].
  cbn [stdout _meta trace]. rewrite <- !app_assoc. simpl.
  destruct (terminate_callback w f); [done|].
  destruct (_read_stderr w) as [text|e]; [|done].
  cbn [stdout _meta trace]. by rewrite <- !app_assoc.
Qed.

Lemma run_launched (w : world) :
  spawn_result w = Process true true →
  run w =
    match start_cleanup w (body w).2 with
    | (Ok _, s) => ((body w).1, s)
    | (Raise e, s) => (Raise e, s)
    end.
Proof.
  intros Hs. unfold run, start. rewrite Hs. unfold body.
  unfold try_finally, mbind, M_bind, emit, entered. simpl.
  by destruct (start_body w _).
Qed.

(** A run that is not launched raises at once and does nothing. *)
Lemma run_not_launched (w : world) :
  spawn_result w ≠ Process true true →
  ∃ msg, run w = (Raise (AustinError msg), initial w).
Proof.
  intros Hs. unfold run, start.
  destruct (spawn_result w) as [|[] []]; try done; by eexists.
Qed.

(** The run when every step of the cleanup goes through. *)
Lemma run_cleanup_done (w : world) (f : dict) (rest : list bytes)
  (text : option str) :
  spawn_result w = Process true true →
  footer w = (Ok f, rest) →
  terminate_callback w f = None →
  _read_stderr w = Ok text →
  run w =
    (match check_exit (exit_code w) text with
     | Ok _ => (body w).1
     | Raise e => Raise e
     end,
     State rest (Py.update (_meta (body w).2) f)
       (trace (body w).2 ++ [EvRunning false; EvFooter f; EvTerminate f;
                             EvStderr text; EvWait (exit_code w)])).
Proof.
  intros Hs Hf Ht Hd. rewrite (run_launched _ Hs), start_cleanup_eq.
  unfold footer in Hf. rewrite Hf. cbv zeta. rewrite Ht, Hd.
  by destruct (check_exit _ _).
Qed.

(** The events of the body and of the cleanup. *)
Lemma body_trace (w : world) :
  ∃ evs, trace (body w).2 = EvRunning true :: evs ∧ body_shape evs.
Proof.
  rewrite body_eq. destruct (_read_meta (stdout_lines w)) as [[h|e] rest].
  - cbv zeta. destruct (Py.dict_truthy h) eqn:Hh.
    + destruct (process_info w); [eexists; split; [done|constructor]|].
      destruct (ready_callback w).
      * exists [EvHeader h; EvReady]. split; [done|].
        by apply (body_ready h []).
      * destruct (sample_loop_samples w rest 0) as [ds Hds].
        destruct (_sample_loop w rest 0) as [evs [r rest']].
        simpl in *. subst evs. eexists. split; [done|]. by constructor.
    + eexists; split; [done|constructor].
  - eexists; split; [done|constructor].
Qed.

Lemma run_trace (w : world) :
  spawn_result w = Process true true →
  ∃ evs evs', trace (run w).2 = trace (body w).2 ++ EvRunning false :: evs'
              ∧ trace (body w).2 = EvRunning true :: evs
              ∧ body_shape evs ∧ cleanup_shape (exit_code w) evs'.
Proof.
  intros Hs. destruct (body_trace w) as (evs & Hb & Hshape).
  exists evs. rewrite (run_launched _ Hs), start_cleanup_eq.
  destruct (_read_meta _) as [[f|e] rest]; cbv zeta.
  - destruct (terminate_callback w f).
    { eexists. split; [done|]. repeat split; [done..|]. apply cleanup_no_wait. }
    destruct (_read_stderr w) as [text|e].
    + eexists. split; [by destruct (check_exit _ _)|].
      repeat split; [done..|]. apply cleanup_done.
    + eexists. split; [done|]. repeat split; [done..|]. apply cleanup_no_wait.
  - eexists. split; [done|]. repeat split; [done..|]. apply cleanup_no_footer.
Qed.

(** ** Order of events *)

Lemma preceded_seen (P Q : event → bool) (tr : list event) :
  preceded P Q true tr = true.
Proof.
  induction tr as [|ev tr IH]; simpl; [done|].
  by rewrite orb_true_r, IH.
Qed.

Lemma preceded_samples (P Q : event → bool) (seen : bool) (ds : list bytes)
  (tr : list event) :
  (∀ d, P (EvSample d) = false) → (∀ d, Q (EvSample d) = false) →
  preceded P Q seen ((EvSample <$> ds) ++ tr) = preceded P Q seen tr.
Proof.
  intros HP HQ. induction ds as [|d ds IH]; simpl; [done|].
  rewrite HP, HQ. simpl. by rewrite orb_false_r.
Qed.

(** What the monitor says about an occurrence of a [later] event. *)
Lemma preceded_prefix (P Q : event → bool) (seen : bool)
  (pre post : list event) (ev : event) :
  preceded P Q seen (pre ++ ev :: post) = true → Q ev = true →
  seen = true ∨ ∃ ev', ev' ∈ pre ∧ P ev' = true.
Proof.
  revert seen. induction pre as [|a pre IH]; intros seen; simpl.
  - intros [H _]%andb_prop HQ. rewrite HQ in H. by left.
  - intros [_ H]%andb_prop HQ.
    destruct (IH _ H HQ) as [[->|Ha]%orb_prop|(ev' & Hin & HP)].
    + by left.
    + right. exists a. split; [apply list_elem_of_here|done].
    + right. exists ev'. split; [by apply list_elem_of_further|done].
Qed.

Lemma monitor_samples (ds : list bytes) (tr : list event) :
  samples_while_running Running ((EvSample <$> ds) ++ tr)
  = samples_while_running Running tr.
Proof. induction ds as [|d ds IH]; simpl; [done|]. exact IH. Qed.

Lemma monitor_prefix (st : RunState) (pre post : list event) (data : bytes) :
  samples_while_running st (pre ++ EvSample data :: post) = true →
  run_state_from st pre = Running.
Proof.
  revert st. induction pre as [|a pre IH]; intros st; simpl.
  - by destruct st.
  - intros [_ H]%andb_prop. by apply IH.
Qed.

(** [Running] is entered where the ready callback is invoked and nowhere
    else. *)
Lemma run_state_running (st : RunState) (pre : list event) :
  run_state_from st pre = Running → st = Running ∨ EvReady ∈ pre.
Proof.
  revert st. induction pre as [|a pre IH]; intros st; simpl; [by left|].
  intros [Hst|Hin]%IH.
  - destruct a as [[]|h| | | | | |]; destruct st; simpl in Hst; try done;
      try (by left).
    right. apply list_elem_of_here.
  - right. by apply list_elem_of_further.
Qed.

(** [Running] is not entered again once it has been left. *)
Lemma run_state_left (st : RunState) (pre : list event) :
  run_state_from st pre = Running →
  (st = NotStarted ∨ st = Running)
  ∧ (EvRunning false ∉ pre) ∧ (∀ rc, EvWait rc ∉ pre).
Proof.
  revert st. induction pre as [|a pre IH]; intros st; simpl.
  - intros ->. split; [by right|]. split; [|intros rc]; apply not_elem_of_nil.
  - intros (Hst & Hflag & Hwait)%IH.
    assert ((st = NotStarted ∨ st = Running)
            ∧ a ≠ EvRunning false ∧ ∀ rc, a ≠ EvWait rc) as (? & ? & H1).
    { destruct a as [[]|h| | | | | |]; destruct st; simpl in Hst;
        destruct Hst as [Hst|Hst]; try discriminate Hst;
        repeat split; try (by left); try (by right); try done. }
    split; [done|]. split; [|intros rc].
    + intros [E|Hin]%elem_of_cons; [congruence|done].
    + intros [E|Hin]%elem_of_cons; [by apply (H1 rc)|by apply (Hwait rc)].
Qed.

Lemma run_monitor (w : world) :
  samples_while_running NotStarted (trace (run w).2) = true.
Proof.
  destruct (decide (spawn_result w = Process true true)) as [Hs|Hs].
  - shapes (run_trace w Hs); simpl; try done;
      rewrite monitor_samples; done.
  - destruct (run_not_launched w Hs) as [msg ->]. done.
Qed.

Lemma run_preceded (w : world) (P Q : event → bool) :
  (P = is_header ∧ Q = is_sample) ∨ (P = is_footer ∧ Q = is_terminate)
  ∨ (P = is_footer ∧ Q = is_wait) ∨ (P = is_terminate ∧ Q = is_wait) →
  preceded P Q false (trace (run w).2) = true.
Proof.
  intros HPQ.
  destruct (decide (spawn_result w = Process true true)) as [Hs|Hs].
  - shapes (run_trace w Hs);
      destruct HPQ as [[-> ->]|[[-> ->]|[[-> ->]|[-> ->]]]]; simpl;
      rewrite ?preceded_seen, ?preceded_samples by done; done.
  - destruct (run_not_launched w Hs) as [msg ->]. done.
Qed.

(** C8, as amended.  On every run that was launched: a header has been
    parsed before any sample is forwarded; the footer has been parsed before
    the termination callback is invoked, and both have happened before the
    exit status is awaited; and when the cleanup itself raises nothing before
    that point (the footer block and the diagnostic text decode, the
    termination callback returns) the exit status is awaited as the last step
    before the outcome is reported, so that the termination notification has
    been delivered whether the outcome is a return or an error. *)
Theorem event_order (w : world) :
  spawn_result w = Process true true →
  (∀ pre data post,
     trace (run w).2 = pre ++ EvSample data :: post → ∃ h, EvHeader h ∈ pre)
  ∧ (∀ pre meta post,
       trace (run w).2 = pre ++ EvTerminate meta :: post →
       ∃ f, EvFooter f ∈ pre)
  ∧ (∀ pre rc post,
       trace (run w).2 = pre ++ EvWait rc :: post →
       (∃ f, EvFooter f ∈ pre) ∧ (∃ meta, EvTerminate meta ∈ pre))
  ∧ (∀ (f : dict) (rest : list bytes) (text : option str),
       footer w = (Ok f, rest) →
       terminate_callback w f = None →
       _read_stderr w = Ok text →
       trace (run w).2
       = trace (body w).2 ++ [EvRunning false; EvFooter f; EvTerminate f;
                              EvStderr text; EvWait (exit_code w)]
       ∧ (run w).1 = match check_exit (exit_code w) text with
                     | Ok _ => (body w).1
                     | Raise e => Raise e
                     end).
Proof.
  intros Hs.
  assert (∀ P Q pre ev post,
            (P = is_header ∧ Q = is_sample) ∨ (P = is_footer ∧ Q = is_terminate)
            ∨ (P = is_footer ∧ Q = is_wait) ∨ (P = is_terminate ∧ Q = is_wait) →
            trace (run w).2 = pre ++ ev :: post → Q ev = true →
            ∃ ev', ev' ∈ pre ∧ P ev' = true) as Hord.
  { intros P Q pre ev post HPQ Htr HQ.
    pose proof (run_preceded w P Q HPQ) as Hmon. rewrite Htr in Hmon.
    by destruct (preceded_prefix _ _ _ _ _ _ Hmon HQ). }
  split; [|split; [|split]].
  - intros pre data post Htr.
    destruct (Hord is_header is_sample _ _ _ ltac:(tauto) Htr eq_refl)
      as ([] & Hin & ?); try done. by eexists.
  - intros pre meta post Htr.
    destruct (Hord is_footer is_terminate _ _ _ ltac:(tauto) Htr eq_refl)
      as ([] & Hin & ?); try done. by eexists.
  - intros pre rc post Htr. split.
    + destruct (Hord is_footer is_wait _ _ _ ltac:(tauto) Htr eq_refl)
        as ([] & Hin & ?); try done. by eexists.
    + destruct (Hord is_terminate is_wait _ _ _ ltac:(tauto) Htr eq_refl)
        as ([] & Hin & ?); try done. by eexists.
  - intros f rest text Hf Ht Hd.
    by rewrite (run_cleanup_done w f rest text Hs Hf Ht Hd).
Qed.

Lemma event_order_witness :
  (run scenario).1 = Ok tt
  ∧ trace (run scenario).2
    = trace (body scenario).2
      ++ [EvRunning false; EvFooter ∅; EvTerminate ∅; EvStderr (Some []);
          EvWait 0].
Proof.
  destruct (event_order scenario eq_refl) as (_ & _ & _ & Hdone).
  destruct (Hdone ∅ [] (Some [])) as [Htr Hr]; [by vm_compute..|].
  split; [|exact Htr]. rewrite Hr. by vm_compute.
Defined.

(** C8 as stated fails when the cleanup itself raises.  Here the line read
    for the footer is not UTF-8: the run reports [UnicodeDecodeError] although
    the exit status was never awaited and the termination callback never
    invoked. *)
Lemma event_order_counterexample :
  (run undecodable_footer).1 = Raise UnicodeDecodeError
  ∧ trace (run undecodable_footer).2
    = [EvRunning true; EvHeader {[ Py.u "key" := Py.u "value" ]}; EvReady;
       EvSample (Py.b "sample-A"); EvRunning false]
  ∧ waits (trace (run undecodable_footer).2) = []
  ∧ terminations (trace (run undecodable_footer).2) = [].
Proof. repeat split; by vm_compute. Qed.

(** ** The termination callback and the metadata *)

Lemma terminations_app (tr tr' : list event) :
  terminations (tr ++ tr') = terminations tr ++ terminations tr'.
Proof. apply omap_app. Qed.

Lemma terminations_samples (ds : list bytes) :
  terminations (EvSample <$> ds) = [].
Proof. induction ds as [|d ds IH]; [done|exact IH]. Qed.

Lemma body_no_termination (w : world) : terminations (trace (body w).2) = [].
Proof.
  destruct (body_trace w) as (evs & -> & Hshape).
  destruct Hshape as [|h|h ds _]; try done.
  apply terminations_samples.
Qed.

Lemma body_meta (w : world) (h : dict) (rest : list bytes) :
  _read_meta (stdout_lines w) = (Ok h, rest) →
  _meta (body w).2 = Py.update (initial_meta w) h.
Proof.
  intros Hh. rewrite body_eq, Hh. cbv zeta.
  destruct (Py.dict_truthy h); [|done].
  destruct (process_info w); [done|]. destruct (ready_callback w); [done|].
  by destruct (_sample_loop w rest 0) as [evs [r rest']].
Qed.

(** The run once the footer has been read: the callback is handed the
    footer's own dictionary, and [self._meta] has absorbed it. *)
Lemma run_footer_read (w : world) (f : dict) (rest : list bytes) :
  spawn_result w = Process true true →
  footer w = (Ok f, rest) →
  _meta (run w).2 = Py.update (_meta (body w).2) f
  ∧ ∃ post, trace (run w).2
            = trace (body w).2
              ++ EvRunning false :: EvFooter f :: EvTerminate f :: post
            ∧ terminations post = [].
Proof.
  intros Hs Hf. rewrite (run_launched _ Hs), start_cleanup_eq.
  unfold footer in Hf. rewrite Hf. cbv zeta.
  destruct (terminate_callback w f); [split; [done|by exists []]|].
  destruct (_read_stderr w) as [text|e]; [|split; [done|by exists []]].
  destruct (check_exit _ _); (split; [done|]);
    by exists [EvStderr text; EvWait (exit_code w)].
Qed.

(** C1, as amended.  For every run that reaches the cleanup and whose footer
    block decodes, the termination callback is invoked exactly once, right
    after the footer has been parsed, and the mapping passed to it is the
    footer's own mapping, the value [_read_footer] returns; the accumulated
    metadata, header merged with footer, is kept in [self._meta] and is not
    what the callback receives. *)
Theorem terminate_receives_footer (w : world) (f : dict) (rest : list bytes) :
  spawn_result w = Process true true →
  footer w = (Ok f, rest) →
  terminations (trace (run w).2) = [f]
  ∧ (∃ post, trace (run w).2
             = trace (body w).2
               ++ EvRunning false :: EvFooter f :: EvTerminate f :: post)
  ∧ _meta (run w).2 = Py.update (_meta (body w).2) f
  ∧ (∀ (h : dict) (rest0 : list bytes),
       _read_meta (stdout_lines w) = (Ok h, rest0) →
       _meta (run w).2 = Py.update (Py.update (initial_meta w) h) f).
Proof.
  intros Hs Hf.
  destruct (run_footer_read w f rest Hs Hf) as (Hmeta & post & Htr & Hpost).
  repeat split.
  - rewrite Htr, terminations_app, (body_no_termination w).
    change (terminations (EvRunning false :: EvFooter f :: EvTerminate f :: post))
      with (f :: terminations post).
    by rewrite Hpost.
  - by exists post.
  - exact Hmeta.
  - intros h rest0 Hh. by rewrite Hmeta, (body_meta w h rest0).
Qed.

Lemma terminate_receives_footer_witness :
  terminations (trace (run scenario).2) = [∅].
Proof.
  refine (proj1 (terminate_receives_footer scenario ∅ [] eq_refl _)).
  by vm_compute.
Defined.

(** C1 as stated fails in the scenario of section 8: the callback is handed
    the empty mapping the footer parse returned, while the accumulated
    metadata is [{key: value, foo: bar}]. *)
Lemma terminate_counterexample :
  terminations (trace (run scenario).2) = [∅]
  ∧ _meta (run scenario).2
    = {[ Py.u "key" := Py.u "value"; Py.u "foo" := Py.u "bar" ]}
  ∧ _meta (run scenario).2 !! Py.u "key" = Some (Py.u "value")
  ∧ (∅ : dict) !! Py.u "key" = None.
Proof. repeat split; by vm_compute. Qed.

(** C7.  The header's and the footer's mappings are merged in that order
    into [self._meta]: a key of the footer holds the footer's value, whether
    or not the header has it too, and a key of the header alone keeps the
    header's value. *)
Theorem footer_overrides_header (w : world) (h f : dict)
  (rest0 rest : list bytes) (key : list N) :
  spawn_result w = Process true true →
  _read_meta (stdout_lines w) = (Ok h, rest0) →
  footer w = (Ok f, rest) →
  _meta (run w).2 = Py.update (Py.update (initial_meta w) h) f
  ∧ (∀ v, f !! key = Some v → _meta (run w).2 !! key = Some v)
  ∧ (∀ v, f !! key = None → h !! key = Some v →
          _meta (run w).2 !! key = Some v).
Proof.
  intros Hs Hh Hf.
  destruct (run_footer_read w f rest Hs Hf) as [Hmeta _].
  rewrite Hmeta, (body_meta w h rest0 Hh). unfold Py.update. repeat split.
  - intros v Hv. by apply lookup_union_Some_l.
  - intros v Hnone Hv. rewrite lookup_union_r by done.
    by apply lookup_union_Some_l.
Qed.

Lemma footer_overrides_header_witness :
  _meta (run overlapping).2 !! Py.u "duration" = Some (Py.u "12")
  ∧ _meta (run overlapping).2 !! Py.u "mode" = Some (Py.u "wall").
Proof.
  assert (_read_meta (stdout_lines overlapping)
          = (Ok {[ Py.u "mode" := Py.u "wall"; Py.u "duration" := Py.u "0" ]},
             [Py.b "sample-A" ++ Py.nl; Py.nl; Py.b "# duration: 12" ++ Py.nl]))
    as Hh by by vm_compute.
  assert (footer overlapping = (Ok {[ Py.u "duration" := Py.u "12" ]}, []))
    as Hf by by vm_compute.
  split.
  - destruct (footer_overrides_header overlapping _ _ _ _ (Py.u "duration")
                eq_refl Hh Hf) as (_ & Hfooter & _).
    apply Hfooter. by vm_compute.
  - destruct (footer_overrides_header overlapping _ _ _ _ (Py.u "mode")
                eq_refl Hh Hf) as (_ & _ & Hheader).
    apply Hheader; by vm_compute.
Defined.

(** ** How a run ends *)

Lemma check_exit_cases (rcode : Z) (text : option str) :
  (rcode = 0 → check_exit rcode text = Ok tt)
  ∧ (rcode = -15 ∨ rcode = 15 →
     check_exit rcode text = Raise (AustinTerminated text))
  ∧ (rcode ≠ 0 → rcode ≠ -15 → rcode ≠ 15 →
     check_exit rcode text = Raise (AustinError (exit_message rcode text))).
Proof.
  unfold check_exit. repeat split.
  - by intros ->.
  - by intros [-> | ->].
  - intros H0 H1 H2.
    destruct (Z.eqb_spec rcode 0); [done|].
    destruct (Z.eqb_spec rcode (-15)); [done|].
    by destruct (Z.eqb_spec rcode 15).
Qed.

(** An empty header block is read as the empty mapping, and only it is. *)
Lemma read_meta_keeps (stream rest : list bytes) (meta found : dict)
  (key : list N) :
  _read_meta_loop stream meta = (Ok found, rest) →
  is_Some (meta !! key) → is_Some (found !! key).
Proof.
  revert meta. induction stream as [|raw stream IH]; intros meta; simpl.
  - by intros [= <- <-].
  - destruct (Py.decode raw) as [text|]; [|done].
    destruct (is_meta _); simpl; [|by intros [= <- <-]].
    destruct (meta_entry _) as [k v]. intros Hrun Hkey. apply (IH _ Hrun).
    destruct (decide (k = key)) as [->|Hne].
    + by rewrite lookup_insert_eq.
    + by rewrite lookup_insert_ne.
Qed.

Lemma empty_header_read (stream rest : list bytes) :
  _read_meta stream = (Ok ∅, rest) ↔
  empty_header stream = true ∧ rest = drop 1 stream.
Proof.
  unfold _read_meta, empty_header, is_terminator.
  destruct stream as [|raw stream]; simpl.
  - split; [by intros [= <-]|by intros [_ ->]].
  - destruct (Py.decode raw) as [text|]; [|split; [done|by intros [? _]]].
    destruct (is_meta _); simpl.
    + split; [|by intros [? _]]. destruct (meta_entry _) as [k v]. intros Hrun.
      destruct (read_meta_keeps _ _ _ _ k Hrun) as [v' Hv'].
      * by rewrite lookup_insert_eq.
      * by rewrite lookup_empty in Hv'.
    + rewrite drop_0. split; [by intros [= <-]|by intros [_ ->]].
Qed.

(** An empty header makes the body raise before anything is announced. *)
Lemma body_empty_header (w : world) :
  empty_header (stdout_lines w) = true →
  body w
  = (Raise (AustinError (Py.u "Austin did not start properly")),
     State (drop 1 (stdout_lines w)) (Py.update (initial_meta w) ∅)
       [EvRunning true; EvHeader ∅]).
Proof.
  intros Hh. rewrite body_eq.
  by rewrite (proj2 (empty_header_read _ _) (conj Hh eq_refl)).
Qed.

(** C2, as amended.  When the header block is empty (the stream ends at
    once, or its first line decodes and is not metadata) the body of the run
    raises [AustinError("Austin did not start properly")], the ready callback
    is never invoked and no sample is forwarded, and the cleanup is entered.
    When the cleanup goes through (the footer block and the diagnostic text
    decode, the termination callback returns), its whole sequence has run:
    footer parse, termination callback, diagnostic read, process wait; the
    caller then sees that [AustinError] if the exit code is 0, and otherwise
    the error of the exit code, which replaces it. *)
Theorem empty_header_run (w : world) :
  spawn_result w = Process true true →
  empty_header (stdout_lines w) = true →
  (body w).1 = Raise (AustinError (Py.u "Austin did not start properly"))
  ∧ readies (trace (run w).2) = []
  ∧ samples (trace (run w).2) = []
  ∧ (∃ evs, trace (run w).2
            = [EvRunning true; EvHeader ∅; EvRunning false] ++ evs)
  ∧ (∀ (f : dict) (rest : list bytes) (text : option str),
       _read_meta (drop 1 (stdout_lines w)) = (Ok f, rest) →
       terminate_callback w f = None →
       _read_stderr w = Ok text →
       trace (run w).2
       = [EvRunning true; EvHeader ∅; EvRunning false; EvFooter f;
          EvTerminate f; EvStderr text; EvWait (exit_code w)]
       ∧ (exit_code w = 0 →
          (run w).1
          = Raise (AustinError (Py.u "Austin did not start properly")))
       ∧ (exit_code w = -15 ∨ exit_code w = 15 →
          (run w).1 = Raise (AustinTerminated text))
       ∧ (exit_code w ≠ 0 → exit_code w ≠ -15 → exit_code w ≠ 15 →
          (run w).1
          = Raise (AustinError (exit_message (exit_code w) text)))).
Proof.
  intros Hs Hh. pose proof (body_empty_header w Hh) as Hbody.
  split; [by rewrite Hbody|].
  assert (∃ evs, trace (run w).2
                 = [EvRunning true; EvHeader ∅; EvRunning false] ++ evs
                 ∧ cleanup_shape (exit_code w) evs) as (evs & Htr & Hshape).
  { destruct (run_trace w Hs) as (evs0 & evs & Htr & _ & _ & Hshape).
    exists evs. split; [|done]. rewrite Htr, Hbody. done. }
  split; [|split; [|split]].
  - rewrite Htr. by destruct Hshape.
  - rewrite Htr. by destruct Hshape.
  - by exists evs.
  - intros f rest text Hf Ht Hd.
    assert (footer w = (Ok f, rest)) as Hfooter.
    { unfold footer. by rewrite Hbody. }
    rewrite (run_cleanup_done w f rest text Hs Hfooter Ht Hd), Hbody.
    destruct (check_exit_cases (exit_code w) text) as (H0 & H15 & Hother).
    cbn [fst snd trace]. repeat split.
    + intros Hz. by rewrite (H0 Hz).
    + intros Hz. by rewrite (H15 Hz).
    + intros ? ? ?. by rewrite Hother.
Qed.

Lemma empty_header_run_witness :
  (run (failing 0)).1
  = Raise (AustinError (Py.u "Austin did not start properly"))
  ∧ trace (run (failing 0)).2
    = [EvRunning true; EvHeader ∅; EvRunning false; EvFooter ∅;
       EvTerminate ∅; EvStderr (Some (Py.u "boom")); EvWait 0].
Proof.
  destruct (empty_header_run (failing 0) eq_refl eq_refl)
    as (_ & _ & _ & _ & Hdone).
  destruct (Hdone ∅ [] (Some (Py.u "boom"))) as (Htr & Hzero & _);
    [by vm_compute..|].
  split; [by apply Hzero|exact Htr].
Defined.

(** C2 as stated fails when the child exits with a non-zero code: the header
    is empty and the cleanup runs, but what the caller sees is the error of
    the exit code, not ["did not start properly"]. *)
Lemma empty_header_counterexample :
  empty_header (stdout_lines (failing 1)) = true
  ∧ (body (failing 1)).1
    = Raise (AustinError (Py.u "Austin did not start properly"))
  ∧ (run (failing 1)).1 = Raise (AustinError (Py.u "(1) boom"))
  ∧ waits (trace (run (failing 1)).2) = [1].
Proof. repeat split; by vm_compute. Qed.

(** C3, as amended.  Once the cleanup has gone through to the exit status:
    code 0 lets the outcome of the body stand, so the run returns normally
    when the body raised nothing; code -15 or 15 makes the run fail with
    [AustinTerminated] carrying the diagnostic text; any other non-zero code
    makes it fail with [AustinError] whose message renders the code and the
    diagnostic text.  The diagnostic text is the decoded, stripped output of
    the read, and it is [None], not the empty string, when the read timed
    out. *)
Theorem exit_classification (w : world) (f : dict) (rest : list bytes)
  (text : option str) :
  spawn_result w = Process true true →
  footer w = (Ok f, rest) →
  terminate_callback w f = None →
  _read_stderr w = Ok text →
  (exit_code w = 0 → (run w).1 = (body w).1)
  ∧ (exit_code w = 0 → (body w).1 = Ok tt → (run w).1 = Ok tt)
  ∧ (exit_code w = -15 ∨ exit_code w = 15 →
     (run w).1 = Raise (AustinTerminated text))
  ∧ (exit_code w ≠ 0 → exit_code w ≠ -15 → exit_code w ≠ 15 →
     (run w).1 = Raise (AustinError (exit_message (exit_code w) text)))
  ∧ (stderr_read w = None → text = None)
  ∧ (∀ raw, stderr_read w = Some raw →
            ∃ decoded, Py.decode raw = Some decoded
                       ∧ text = Some (Py.str_rstrip decoded)).
Proof.
  intros Hs Hf Ht Hd. rewrite (run_cleanup_done w f rest text Hs Hf Ht Hd).
  destruct (check_exit_cases (exit_code w) text) as (H0 & H15 & Hother).
  cbn [fst]. repeat split.
  - intros Hz. by rewrite (H0 Hz).
  - intros Hz Hb. by rewrite (H0 Hz).
  - intros Hz. by rewrite (H15 Hz).
  - intros ? ? ?. by rewrite Hother.
  - intros Hnone. unfold _read_stderr in Hd. rewrite Hnone in Hd. congruence.
  - intros raw Hraw. unfold _read_stderr in Hd. rewrite Hraw in Hd.
    destruct (Py.decode raw) as [decoded|]; [|done].
    exists decoded. split; [done|]. congruence.
Qed.

Lemma exit_classification_witness :
  (run (silent (-15))).1 = Raise (AustinTerminated None)
  ∧ (run scenario).1 = Ok tt.
Proof.
  split.
  - destruct (exit_classification (silent (-15)) ∅ [] None)
      as (_ & _ & Hterm & _); [by vm_compute..|].
    apply Hterm. by left.
  - destruct (exit_classification scenario ∅ [] (Some []))
      as (_ & Hclean & _); [by vm_compute..|].
    apply Hclean; by vm_compute.
Defined.

(** C3 as stated fails when the diagnostic read times out: the error carries
    [None], not the empty string, and the generic message renders it as
    ["None"].  And exit code 0 does not make a run return normally when its
    body has raised: after an empty header the run still fails. *)
Lemma exit_classification_counterexample :
  (stderr_read (silent 15) = None
   ∧ (run (silent 15)).1 = Raise (AustinTerminated None)
   ∧ AustinTerminated None ≠ AustinTerminated (Some [])
   ∧ (run (silent 1)).1 = Raise (AustinError (Py.u "(1) None")))
  ∧ (exit_code (failing 0) = 0
     ∧ (run (failing 0)).1
       = Raise (AustinError (Py.u "Austin did not start properly"))).
Proof. repeat split; by vm_compute. Qed.

(** C5, as amended.  A launch error is raised at once.  After a launch the
    cleanup is entered however the body ends, and when it goes through to the
    exit status: with exit code 0 the outcome of the body, error or not,
    reaches the caller; with a non-zero exit code the caller sees
    [AustinTerminated] or the [AustinError] of the exit code, which replaces
    whatever the body raised. *)
Theorem errors_surface (w : world) :
  (spawn_result w = FileNotFoundError →
   run w = (Raise (AustinError (Py.u "Austin executable not found.")),
            initial w))
  ∧ (∀ has_stderr, spawn_result w = Process false has_stderr →
       run w
       = (Raise (AustinError
                   (Py.u "Standard output stream is unexpectedly missing")),
          initial w))
  ∧ (spawn_result w = Process true false →
     run w
     = (Raise (AustinError
                 (Py.u "Standard error stream is unexpectedly missing")),
        initial w))
  ∧ (spawn_result w = Process true true →
     (∃ evs, trace (run w).2 = trace (body w).2 ++ EvRunning false :: evs)
     ∧ ∀ (f : dict) (rest : list bytes) (text : option str),
         footer w = (Ok f, rest) →
         terminate_callback w f = None →
         _read_stderr w = Ok text →
         trace (run w).2
         = trace (body w).2 ++ [EvRunning false; EvFooter f; EvTerminate f;
                                EvStderr text; EvWait (exit_code w)]
         ∧ (exit_code w = 0 → (run w).1 = (body w).1)
         ∧ (exit_code w = -15 ∨ exit_code w = 15 →
            (run w).1 = Raise (AustinTerminated text))
         ∧ (exit_code w ≠ 0 → exit_code w ≠ -15 → exit_code w ≠ 15 →
            (run w).1
            = Raise (AustinError (exit_message (exit_code w) text)))).
Proof.
  split; [|split; [|split]].
  - intros Hs. unfold run, start. by rewrite Hs.
  - intros e Hs. unfold run, start. by rewrite Hs.
  - intros Hs. unfold run, start. by rewrite Hs.
  - intros Hs. split.
    + destruct (run_trace w Hs) as (evs0 & evs & Htr & _). by exists evs.
    + intros f rest text Hf Ht Hd.
      rewrite (run_cleanup_done w f rest text Hs Hf Ht Hd).
      destruct (check_exit_cases (exit_code w) text) as (H0 & H15 & Hother).
      cbn [fst snd trace]. repeat split.
      * intros Hz. by rewrite (H0 Hz).
      * intros Hz. by rewrite (H15 Hz).
      * intros ? ? ?. by rewrite Hother.
Qed.

Lemma errors_surface_witness :
  (run (failing 0)).1
  = Raise (AustinError (Py.u "Austin did not start properly"))
  ∧ (run raising_sink).1 = Raise (CallbackError 7)
  ∧ waits (trace (run raising_sink).2) = [0].
Proof.
  split.
  - destruct (errors_surface (failing 0)) as (_ & _ & _ & Hrun).
    destruct (Hrun eq_refl) as [_ Hdone].
    destruct (Hdone ∅ [] (Some (Py.u "boom"))) as (_ & Hzero & _);
      [by vm_compute..|].
    by rewrite Hzero.
  - destruct (errors_surface raising_sink) as (_ & _ & _ & Hrun).
    destruct (Hrun eq_refl) as [_ Hdone].
    destruct (Hdone ∅ [] (Some [])) as (Htr & Hzero & _); [by vm_compute..|].
    rewrite Htr, Hzero by done. split; by vm_compute.
Defined.

(** C5 as stated fails for an empty header with a non-zero exit code: the
    body raises ["did not start properly"], and the caller sees
    [AustinTerminated] in its place. *)
Lemma errors_counterexample :
  (body (failing (-15))).1
  = Raise (AustinError (Py.u "Austin did not start properly"))
  ∧ (run (failing (-15))).1 = Raise (AustinTerminated (Some (Py.u "boom"))).
Proof. split; by vm_compute. Qed.

(** ** The sample loop *)

(** C9, as amended.  With a sink that returns, the loop forwards the first
    [n] lines of the stream, each exactly once and in stream order, each with
    ALL its trailing ASCII whitespace removed (not only the newline) and
    otherwise byte for byte.  It goes on while the flag is set and the
    stripped line is not empty; it stops either because the flag is found
    cleared, and then reads nothing more, or because a read yields nothing
    once stripped (end of stream, empty line, or a line of whitespace only),
    and then that read is consumed. *)
Theorem sample_loop_contract (w : world) (stream : list bytes) (k : nat) :
  (∀ i data, submit_sample w i data = None) →
  ∃ n : nat,
    (_sample_loop w stream k).1
    = (λ raw, EvSample (Py.bytes_rstrip raw)) <$> take n stream
    ∧ (_sample_loop w stream k).2.1 = Ok tt
    ∧ (∀ i raw, stream !! i = Some raw → (i < n)%nat →
                running_at w (k + i) = true ∧ Py.bytes_rstrip raw ≠ [])
    ∧ ((running_at w (k + n) = false
        ∧ (_sample_loop w stream k).2.2 = drop n stream)
       ∨ (running_at w (k + n) = true
          ∧ Py.bytes_rstrip (readline (drop n stream)).1 = []
          ∧ (_sample_loop w stream k).2.2 = (readline (drop n stream)).2))
    ∧ (∀ raw : bytes,
         ∃ ws, raw = Py.bytes_rstrip raw ++ ws
               ∧ forallb Py.bytes_isspace ws = true
               ∧ ∀ c, last (Py.bytes_rstrip raw) = Some c →
                      Py.bytes_isspace c = false).
Proof.
  intros Hsink.
  assert (∀ raw : bytes,
            ∃ ws, raw = Py.bytes_rstrip raw ++ ws
                  ∧ forallb Py.bytes_isspace ws = true
                  ∧ ∀ c, last (Py.bytes_rstrip raw) = Some c →
                         Py.bytes_isspace c = false) as Hstrip.
  { intros raw. destruct (rstrip_by_split Py.bytes_isspace raw) as (ws & E & Hws).
    exists ws. repeat split; [done..|]. apply rstrip_by_last. }
  revert k. induction stream as [|raw stream IH]; intros k.
  - exists 0%nat. rewrite Nat.add_0_r. simpl.
    split; [by destruct (running_at w k)|].
    split; [by destruct (running_at w k)|].
    split; [intros i raw _ Hi; lia|]. split; [|exact Hstrip].
    destruct (running_at w k); [by right|by left].
  - simpl. destruct (running_at w k) eqn:Hrun; simpl.
    2: { exists 0%nat. rewrite Nat.add_0_r, Hrun.
         split; [done|]. split; [done|].
         split; [intros i raw' _ Hi; lia|]. split; [by left|exact Hstrip]. }
    destruct (Py.bytes_rstrip raw) as [|c data] eqn:Hdata; simpl.
    { exists 0%nat. rewrite Nat.add_0_r, Hrun.
      split; [done|]. split; [done|].
      split; [intros i raw' _ Hi; lia|]. split; [by right|exact Hstrip]. }
    rewrite Hsink. destruct (IH (S k)) as (n & Hevs & Hok & Hlines & Hstop & _).
    destruct (_sample_loop w stream (S k)) as [evs [r rest]]. simpl in *.
    exists (S n). replace (k + S n)%nat with (S (k + n)) by lia.
    split; [simpl; by rewrite Hdata, Hevs|]. split; [done|].
    split; [|split; [exact Hstop|exact Hstrip]].
    intros [|i] raw' Hlook Hi; simpl in Hlook.
    + injection Hlook as <-. rewrite Nat.add_0_r, Hdata. done.
    + replace (k + S i)%nat with (S (k + i)) by lia.
      apply (Hlines i raw' Hlook). lia.
Qed.

(** The samples of the scenario of section 8. *)
Lemma sample_loop_contract_witness :
  ∃ n : nat,
    (_sample_loop scenario [Py.b "sample-A" ++ Py.nl; Py.b "sample-B" ++ Py.nl] 0).1
    = (λ raw, EvSample (Py.bytes_rstrip raw))
        <$> take n [Py.b "sample-A" ++ Py.nl; Py.b "sample-B" ++ Py.nl].
Proof.
  destruct (sample_loop_contract scenario
              [Py.b "sample-A" ++ Py.nl; Py.b "sample-B" ++ Py.nl] 0
              (λ _ _, eq_refl)) as (n & Hevs & _).
  by exists n.
Defined.

(** C9 as stated fails on trailing whitespace: a line that ends in spaces is
    forwarded without them, and a line of spaces, which is not empty, is not
    forwarded at all and ends the loop with a sample still to come. *)
Lemma sample_loop_counterexample :
  (_sample_loop scenario [Py.b "sample-A  " ++ Py.nl] 0).1
  = [EvSample (Py.b "sample-A")]
  ∧ strip_newline (Py.b "sample-A  " ++ Py.nl) = Py.b "sample-A  "
  ∧ Py.b "sample-A" ≠ Py.b "sample-A  "
  ∧ _sample_loop scenario [Py.b "  " ++ Py.nl; Py.b "sample-B" ++ Py.nl] 0
    = ([], (Ok tt, [Py.b "sample-B" ++ Py.nl])).
Proof. repeat split; by vm_compute. Qed.

(** * Further properties of the code *)

(** ** What the trace of a run holds *)

Lemma samples_app (tr tr' : list event) :
  samples (tr ++ tr') = samples tr ++ samples tr'.
Proof. apply omap_app. Qed.

Lemma readies_app (tr tr' : list event) :
  readies (tr ++ tr') = readies tr ++ readies tr'.
Proof. apply omap_app. Qed.

Lemma waits_app (tr tr' : list event) :
  waits (tr ++ tr') = waits tr ++ waits tr'.
Proof. apply omap_app. Qed.


Lemma samples_of_samples (ds : list bytes) : samples (EvSample <$> ds) = ds.
Proof. induction ds as [|d ds IH]; [done|]. simpl. f_equal. exact IH. Qed.

Lemma readies_of_samples (ds : list bytes) : readies (EvSample <$> ds) = [].
Proof. induction ds as [|d ds IH]; [done|exact IH]. Qed.

Lemma waits_of_samples (ds : list bytes) : waits (EvSample <$> ds) = [].
Proof. induction ds as [|d ds IH]; [done|exact IH]. Qed.


(** The cleanup submits no sample and announces nothing. *)
Lemma cleanup_quiet (rcode : Z) (evs : list event) :
  cleanup_shape rcode evs →
  samples evs = [] ∧ readies evs = [] ∧ flags evs = [].
Proof. by intros []. Qed.

(** ** The sample loop, whatever the sink does *)

(** What the loop submits is the stripped text of a prefix of the stream, and
    what it leaves is the stream after that prefix, with the line that ended
    the loop consumed when a read ended it. *)
Lemma sample_loop_prefix (w : world) (stream : list bytes) (k : nat) :
  ∃ n : nat,
    (n ≤ length stream)%nat
    ∧ (_sample_loop w stream k).1
      = (λ raw, EvSample (Py.bytes_rstrip raw)) <$> take n stream
    ∧ ((_sample_loop w stream k).2.2 = drop n stream
       ∨ (_sample_loop w stream k).2.2 = drop (S n) stream).
Proof.
  revert k. induction stream as [|raw stream IH]; intros k; simpl.
  - exists 0%nat. destruct (running_at w k); simpl; auto.
  - destruct (running_at w k); simpl.
    2: { exists 0%nat. split; [lia|]. split; [done|by left]. }
    destruct (Py.truthy _); simpl.
    2: { exists 0%nat. split; [lia|]. split; [done|by right]. }
    destruct (submit_sample w k _).
    { exists 1%nat. split; [simpl; lia|]. split; [done|by left]. }
    destruct (IH (S k)) as (n & Hn & Hevs & Hrest).
    destruct (_sample_loop w stream (S k)) as [evs [r rest]]. simpl in *.
    exists (S n). split; [lia|]. split; [by rewrite Hevs|done].
Qed.

(** Every sample the loop submits is non-empty and stripped. *)
Lemma sample_loop_data (w : world) (stream : list bytes) (k : nat) :
  Forall (λ d, d ≠ [] ∧ Py.bytes_rstrip d = d)
         (samples (_sample_loop w stream k).1).
Proof.
  revert k. induction stream as [|raw stream IH]; intros k; simpl.
  - destruct (running_at w k); by constructor.
  - destruct (running_at w k); simpl; [|by constructor].
    destruct (Py.bytes_rstrip raw) as [|c data] eqn:Hdata; simpl;
      [by constructor|].
    assert ((c :: data) ≠ [] ∧ Py.bytes_rstrip (c :: data) = c :: data) as Hd.
    { split; [done|]. rewrite <- Hdata. apply rstrip_by_idemp. }
    destruct (submit_sample w k _).
    { simpl. constructor; [exact Hd|constructor]. }
    specialize (IH (S k)).
    destruct (_sample_loop w stream (S k)) as [evs r]. simpl in *.
    constructor; [exact Hd|exact IH].
Qed.

(** The samples of a run are those of its sample loop, if it got there. *)
Lemma body_samples (w : world) :
  samples (trace (body w).2) = []
  ∨ ∃ (h : dict) (rest : list bytes),
      _read_meta (stdout_lines w) = (Ok h, rest)
      ∧ Py.dict_truthy h = true
      ∧ process_info w = None ∧ ready_callback w = None
      ∧ samples (trace (body w).2) = samples (_sample_loop w rest 0).1
      ∧ stdout (body w).2 = (_sample_loop w rest 0).2.2.
Proof.
  rewrite body_eq. destruct (_read_meta (stdout_lines w)) as [[h|e] rest] eqn:Hh;
    [|by left].
  cbv zeta. destruct (Py.dict_truthy h) eqn:Htruthy; [|by left].
  destruct (process_info w) eqn:Hp; [by left|].
  destruct (ready_callback w) eqn:Hr; [by left|].
  right. exists h, rest.
  destruct (_sample_loop w rest 0) as [evs [r rest']]. by repeat split.
Qed.

Lemma run_samples (w : world) :
  spawn_result w = Process true true →
  samples (trace (run w).2) = samples (trace (body w).2).
Proof.
  intros Hs. destruct (run_trace w Hs) as (evs & evs' & -> & _ & _ & Hc).
  rewrite samples_app. change (samples (EvRunning false :: evs'))
    with (samples evs').
  by rewrite (proj1 (cleanup_quiet _ _ Hc)), app_nil_r.
Qed.

(** ** The states of a run *)

Lemma samples_of_lines (lines : list bytes) :
  samples ((λ raw, EvSample (Py.bytes_rstrip raw)) <$> lines)
  = Py.bytes_rstrip <$> lines.
Proof. induction lines as [|raw lines IH]; [done|]. simpl. by f_equal. Qed.

(** The first occurrence of an event cuts a trace in one way only. *)
Lemma first_occurrence {A} (x : A) (l1 l2 l1' l2' : list A) :
  l1 ++ x :: l2 = l1' ++ x :: l2' → x ∉ l1 → x ∉ l1' → l1 = l1'.
Proof.
  revert l1'. induction l1 as [|a l1 IH]; intros [|a' l1']; simpl.
  - done.
  - intros [= <- _] _ Hn. exfalso. apply Hn, list_elem_of_here.
  - intros [= -> _] Hn _. exfalso. apply Hn, list_elem_of_here.
  - intros [= <- E] Hn Hn'. f_equal. apply IH; [done|..]; intros Hin;
      [apply Hn|apply Hn']; by apply list_elem_of_further.
Qed.

(** A prefix of a trace that holds the ready callback holds the header read
    that came before it. *)
Lemma ready_after_header (h : dict) (pre post tail : list event) :
  pre ++ post = EvRunning true :: EvHeader h :: tail →
  EvReady ∈ pre → EvHeader h ∈ pre.
Proof.
  destruct pre as [|a [|b pre]]; simpl.
  - intros _ Hin. by apply elem_of_nil in Hin.
  - intros [= -> _] Hin. apply elem_of_cons in Hin as [?|Hin]; [done|].
    by apply elem_of_nil in Hin.
  - intros [= -> -> _] _. apply list_elem_of_further, list_elem_of_here.
Qed.

(** The sample loop, whatever the sink does: it has submitted the stripped
    text of the first [n] lines; in each of these turns the flag was found set
    and the read was not empty; and it ended because the flag was found
    cleared, or because a read yielded nothing, or by an exception. *)
Lemma sample_loop_turns (w : world) (stream : list bytes) (k : nat) :
  ∃ n : nat,
    (n ≤ length stream)%nat
    ∧ (_sample_loop w stream k).1
      = (λ raw, EvSample (Py.bytes_rstrip raw)) <$> take n stream
    ∧ (∀ j, (j < n)%nat →
            running_at w (k + j) = true
            ∧ ∃ raw, stream !! j = Some raw ∧ Py.bytes_rstrip raw ≠ [])
    ∧ (running_at w (k + n) = false
       ∨ Py.bytes_rstrip (readline (drop n stream)).1 = []
       ∨ ∃ e, (_sample_loop w stream k).2.1 = Raise e).
Proof.
  revert k. induction stream as [|raw stream IH]; intros k.
  - exists 0%nat. rewrite Nat.add_0_r. simpl.
    split; [lia|]. split; [by destruct (running_at w k)|].
    split; [intros j Hj; lia|]. right. by left.
  - simpl. destruct (running_at w k) eqn:Hrun; simpl.
    2: { exists 0%nat. rewrite Nat.add_0_r.
         split; [lia|]. split; [done|]. split; [intros j Hj; lia|by left]. }
    destruct (Py.bytes_rstrip raw) as [|c data] eqn:Hdata; simpl.
    { exists 0%nat. split; [lia|]. split; [done|].
      split; [intros j Hj; lia|]. right. by left. }
    assert (∀ j, (j < 1)%nat →
              running_at w (k + j) = true
              ∧ ∃ raw', (raw :: stream) !! j = Some raw'
                        ∧ Py.bytes_rstrip raw' ≠ []) as Hfirst.
    { intros [|j] Hj; [|lia]. rewrite Nat.add_0_r. split; [done|].
      exists raw. by rewrite Hdata. }
    destruct (submit_sample w k (c :: data)) as [e|].
    { exists 1%nat. split; [simpl; lia|].
      split; [simpl; by rewrite Hdata|].
      split; [exact Hfirst|]. right. right. by exists e. }
    destruct (IH (S k)) as (n & Hn & Hevs & Hturns & Hend).
    destruct (_sample_loop w stream (S k)) as [evs [r rest]]. simpl in *.
    exists (S n). replace (k + S n)%nat with (S (k + n)) by lia.
    split; [lia|]. split; [simpl; by rewrite Hdata, Hevs|].
    split; [|exact Hend].
    intros [|j] Hj; [apply (Hfirst 0%nat); lia|].
    replace (k + S j)%nat with (S (k + j)) by lia. apply Hturns. lia.
Qed.

(** A body that got to the ready callback had read a non-empty header, and
    then the callback raised or the sample loop ran. *)
Lemma body_announced (w : world) :
  EvReady ∈ trace (body w).2 →
  ∃ (h : dict) (rest : list bytes) (evs : list event),
    _read_meta (stdout_lines w) = (Ok h, rest) ∧ h ≠ ∅
    ∧ trace (body w).2 = [EvRunning true; EvHeader h; EvReady] ++ evs
    ∧ ((evs = [] ∧ ∃ e, (body w).1 = Raise e)
       ∨ (evs = (_sample_loop w rest 0).1
          ∧ (body w).1 = (_sample_loop w rest 0).2.1)).
Proof.
  assert (∀ evs : list event,
            EvReady ∈ evs →
            Forall (λ ev, is_ready ev = false) evs → False) as Hnone.
  { intros evs Hin Hall. rewrite Forall_forall in Hall.
    by specialize (Hall _ Hin). }
  rewrite body_eq.
  destruct (_read_meta (stdout_lines w)) as [[h|e] rest] eqn:Hh; cbv zeta.
  2: { intros Hin. destruct (Hnone _ Hin). by repeat constructor. }
  unfold Py.dict_truthy. case_bool_decide as Hne.
  2: { intros Hin. destruct (Hnone _ Hin). by repeat constructor. }
  destruct (process_info w).
  { intros Hin. destruct (Hnone _ Hin). by repeat constructor. }
  intros _. exists h, rest. destruct (ready_callback w) as [e|].
  - exists []. repeat split; [done..|]. left. split; [done|by exists e].
  - destruct (_sample_loop w rest 0) as [evs [r rest']]. exists evs.
    repeat split; [done..|]. by right.
Qed.

(** The same for the whole run, with what the sample loop had found. *)
Lemma run_announced (w : world) :
  EvReady ∈ trace (run w).2 →
  ∃ (h : dict) (rest : list bytes) (n : nat) (evs' : list event),
    _read_meta (stdout_lines w) = (Ok h, rest) ∧ h ≠ ∅
    ∧ (n ≤ length rest)%nat
    ∧ trace (body w).2
      = [EvRunning true; EvHeader h; EvReady]
        ++ ((λ raw, EvSample (Py.bytes_rstrip raw)) <$> take n rest)
    ∧ trace (run w).2 = trace (body w).2 ++ EvRunning false :: evs'
    ∧ cleanup_shape (exit_code w) evs'
    ∧ (∀ j, (j < n)%nat →
            running_at w j = true
            ∧ ∃ raw, rest !! j = Some raw ∧ Py.bytes_rstrip raw ≠ [])
    ∧ (running_at w n = false
       ∨ Py.bytes_rstrip (readline (drop n rest)).1 = []
       ∨ ∃ e, (body w).1 = Raise e).
Proof.
  intros Hin.
  destruct (decide (spawn_result w = Process true true)) as [Hs|Hs].
  2: { destruct (run_not_launched w Hs) as [msg E]. rewrite E in Hin.
       by apply elem_of_nil in Hin. }
  destruct (run_trace w Hs) as (evs0 & evs' & Htr & _ & _ & Hc).
  rewrite Htr in Hin. apply elem_of_app in Hin as [Hin|Hin].
  2: { exfalso. destruct Hc; repeat (apply elem_of_cons in Hin as [?|Hin];
         [done|]); by apply elem_of_nil in Hin. }
  destruct (body_announced w Hin)
    as (h & rest & evs & Hh & Hne & Hb & [[-> He]|[-> Hr]]).
  - exists h, rest, 0%nat, evs'. rewrite take_0.
    repeat split; [done|done|lia|done|done|done|..].
    + lia.
    + lia.
    + right. by right.
  - destruct (sample_loop_turns w rest 0) as (n & Hn & Hevs & Hturns & Hend).
    exists h, rest, n, evs'. rewrite Hevs in Hb.
    split; [done|]. split; [done|]. split; [done|]. split; [done|].
    split; [done|]. split; [done|]. split; [exact Hturns|].
    rewrite Hr. exact Hend.
Qed.

(** C4.  The states of a run are placed at the program points of [start]:
    [Running] from the ready callback to the [finally] block, [Draining] from
    there to the return of [proc.wait()].  On every run:
    - [Running] is entered only after the header read has returned a
      non-empty mapping;
    - whenever a sample is forwarded the run is in [Running]: the non-empty
      header has been read, the [finally] block has not been entered and the
      exit status has not been retrieved; in every turn of the loop so far,
      this one included, the flag was found set and the line read was not
      empty once stripped, so that nothing is forwarded once a stop request
      or the end of the stream has been met; and the sample is the stripped
      text of the line at its own position after the header;
    - the run leaves [Running] for [Draining] only when the loop has found the
      flag cleared, or a read has yielded nothing, or an exception has ended
      the [try] body. *)
Theorem samples_only_while_running (w : world) :
  (∀ pre post : list event,
     trace (run w).2 = pre ++ post → run_state pre = Running →
     ∃ (h : dict) (rest : list bytes),
       _read_meta (stdout_lines w) = (Ok h, rest) ∧ h ≠ ∅ ∧ EvHeader h ∈ pre)
  ∧ (∀ (pre : list event) (data : bytes) (post : list event),
       trace (run w).2 = pre ++ EvSample data :: post →
       run_state pre = Running
       ∧ (EvRunning false ∉ pre)
       ∧ (∀ rc, EvWait rc ∉ pre)
       ∧ ∃ (h : dict) (rest : list bytes),
           _read_meta (stdout_lines w) = (Ok h, rest)
           ∧ h ≠ ∅ ∧ EvHeader h ∈ pre
           ∧ (∀ j, (j ≤ length (samples pre))%nat →
                   running_at w j = true
                   ∧ ∃ raw, rest !! j = Some raw ∧ Py.bytes_rstrip raw ≠ [])
           ∧ ∃ raw, rest !! length (samples pre) = Some raw
                    ∧ data = Py.bytes_rstrip raw)
  ∧ (∀ pre post : list event,
       trace (run w).2 = pre ++ EvRunning false :: post →
       run_state pre = Running →
       ∃ (h : dict) (rest : list bytes),
         _read_meta (stdout_lines w) = (Ok h, rest)
         ∧ (running_at w (length (samples pre)) = false
            ∨ Py.bytes_rstrip (readline (drop (length (samples pre)) rest)).1 = []
            ∨ ∃ e, (body w).1 = Raise e)).
Proof.
  assert (∀ pre post : list event,
            trace (run w).2 = pre ++ post → run_state pre = Running →
            EvReady ∈ pre ∧ EvReady ∈ trace (run w).2) as Hready.
  { intros pre post Htr [?|Hin]%run_state_running; [done|].
    split; [done|]. rewrite Htr. apply elem_of_app. by left. }
  split; [|split].
  - intros pre post Htr Hst. destruct (Hready _ _ Htr Hst) as [Hpre Hin].
    destruct (run_announced w Hin)
      as (h & rest & n & evs' & Hh & Hne & _ & Hb & Hrun & _).
    exists h, rest. split; [done|]. split; [done|].
    rewrite Hrun, Hb in Htr. symmetry in Htr. simpl in Htr.
    by apply (ready_after_header h pre post _ Htr).
  - intros pre data post Htr.
    pose proof (run_monitor w) as Hmon. rewrite Htr in Hmon.
    apply monitor_prefix in Hmon. fold (run_state pre) in Hmon.
    destruct (run_state_left _ _ Hmon) as (_ & Hflag & Hwait).
    split; [done|]. split; [done|]. split; [done|].
    destruct (Hready _ _ Htr Hmon) as [Hpre Hin].
    destruct (run_announced w Hin)
      as (h & rest & n & evs' & Hh & Hne & Hn & Hb & Hrun & Hc & Hturns & _).
    exists h, rest. split; [done|]. split; [done|].
    assert (samples pre ++ data :: samples post
            = Py.bytes_rstrip <$> take n rest) as Hsamples.
    { change (samples pre ++ data :: samples post)
        with (samples pre ++ samples (EvSample data :: post)).
      rewrite <- samples_app, <- Htr, Hrun, Hb, !samples_app.
      change (samples (EvRunning false :: evs')) with (samples evs').
      rewrite (proj1 (cleanup_quiet _ _ Hc)), app_nil_r.
      apply samples_of_lines. }
    assert ((Py.bytes_rstrip <$> take n rest) !! length (samples pre)
            = Some data) as Hlook.
    { rewrite <- Hsamples. apply list_lookup_middle. done. }
    rewrite list_lookup_fmap in Hlook.
    destruct (take n rest !! length (samples pre)) as [raw|] eqn:Hraw;
      [|done].
    injection Hlook as <-.
    apply lookup_take_Some in Hraw as [Hraw Hi].
    split; [|split; [|by exists raw]].
    + rewrite Hrun, Hb in Htr. symmetry in Htr. simpl in Htr.
      by apply (ready_after_header h pre (EvSample _ :: post) _ Htr).
    + intros j Hj. apply Hturns. lia.
  - intros pre post Htr Hst.
    destruct (Hready _ _ Htr Hst) as [Hpre Hin].
    destruct (run_announced w Hin)
      as (h & rest & n & evs' & Hh & Hne & Hn & Hb & Hrun & Hc & _ & Hend).
    exists h, rest. split; [done|].
    destruct (run_state_left _ _ Hst) as (_ & Hflag & _).
    assert (pre = trace (body w).2) as ->.
    { rewrite Hrun in Htr. symmetry in Htr.
      apply (first_occurrence _ _ _ _ _ Htr); [done|].
      rewrite Hb. intros [Hx|Hx]%elem_of_app.
      - repeat (apply elem_of_cons in Hx as [?|Hx]; [done|]).
        by apply elem_of_nil in Hx.
      - apply list_elem_of_fmap in Hx as (raw & ? & _). done. }
    rewrite Hb, samples_app, samples_of_lines. simpl.
    rewrite length_fmap, length_take, Nat.min_l by done. exact Hend.
Qed.

(** In the scenario of section 8 the second sample is forwarded in
    [Running], after two turns of the loop that found the flag set. *)
Lemma samples_only_while_running_witness :
  run_state (take 4 (trace (run scenario).2)) = Running
  ∧ running_at scenario 1 = true
  ∧ (EvRunning false ∉ take 4 (trace (run scenario).2)).
Proof.
  destruct (samples_only_while_running scenario) as (_ & Hsample & _).
  assert (trace (run scenario).2
          = take 4 (trace (run scenario).2)
            ++ EvSample (Py.b "sample-B") :: drop 5 (trace (run scenario).2))
    as Htr by (by vm_compute).
  destruct (Hsample _ _ _ Htr)
    as (Hst & Hflag & _ & h & rest & _ & _ & _ & Hturns & _).
  split; [exact Hst|]. split; [|exact Hflag].
  apply (Hturns 1%nat). vm_compute. lia.
Defined.

(** X1.  Whatever the sink and the other callbacks do, every sample handed to
    the sink in a run is non-empty and has no trailing whitespace. *)
Theorem forwarded_samples_stripped (w : world) (data : bytes) :
  data ∈ samples (trace (run w).2) →
  data ≠ [] ∧ Py.bytes_rstrip data = data
  ∧ ∀ c, last data = Some c → Py.bytes_isspace c = false.
Proof.
  intros Hin.
  assert (data ≠ [] ∧ Py.bytes_rstrip data = data) as [Hne Hs].
  { destruct (decide (spawn_result w = Process true true)) as [Hl|Hl].
    - rewrite (run_samples w Hl) in Hin.
      destruct (body_samples w) as [E|(h & rest & _ & _ & _ & _ & E & _)];
        rewrite E in Hin; [by apply elem_of_nil in Hin|].
      pose proof (sample_loop_data w rest 0) as Hall.
      rewrite Forall_forall in Hall. by apply Hall.
    - destruct (run_not_launched w Hl) as [msg E]. rewrite E in Hin.
      by apply elem_of_nil in Hin. }
  repeat split; [done..|]. intros c Hc. rewrite <- Hs in Hc.
  by apply (rstrip_by_last _ _ _ Hc).
Qed.

Lemma forwarded_samples_stripped_witness :
  Py.b "sample-A" ≠ [] ∧ Py.bytes_rstrip (Py.b "sample-A") = Py.b "sample-A".
Proof.
  destruct (forwarded_samples_stripped scenario (Py.b "sample-A"))
    as (Hne & Hs & _); [|done].
  vm_compute. apply list_elem_of_here.
Defined.

(** ** The ready callback and the flag *)

Lemma run_preceded_ready (w : world) :
  preceded is_ready is_sample false (trace (run w).2) = true.
Proof.
  destruct (decide (spawn_result w = Process true true)) as [Hs|Hs].
  - shapes (run_trace w Hs); simpl; rewrite ?preceded_seen; done.
  - destruct (run_not_launched w Hs) as [msg ->]. done.
Qed.

Lemma body_readies (w : world) :
  (readies (trace (body w).2) = [tt]
   ∧ process_info w = None
   ∧ ∃ (h : dict) (rest : list bytes),
       _read_meta (stdout_lines w) = (Ok h, rest) ∧ h ≠ ∅)
  ∨ (readies (trace (body w).2) = []
     ∧ (process_info w ≠ None
        ∨ ∀ (h : dict) (rest : list bytes),
            _read_meta (stdout_lines w) = (Ok h, rest) → h = ∅)).
Proof.
  rewrite body_eq.
  destruct (_read_meta (stdout_lines w)) as [[h|e] rest] eqn:Hh;
    [|right; split; [done|by right]].
  cbv zeta. unfold Py.dict_truthy. case_bool_decide as Hne.
  - destruct (process_info w) eqn:Hp; [right; split; [done|by left]|].
    left. split; [|split; [done|by exists h, rest]].
    destruct (ready_callback w); [done|].
    destruct (sample_loop_samples w rest 0) as [ds Hds].
    destruct (_sample_loop w rest 0) as [evs [r rest']]. simpl in *. subst evs.
    change (readies ([EvRunning true; EvHeader h; EvReady] ++ (EvSample <$> ds)))
      with (tt :: readies (EvSample <$> ds)).
    by rewrite readies_of_samples.
  - right. split; [done|]. right. intros h' rest' [= <- <-].
    by destruct (decide (h = ∅)).
Qed.

(** X2.  On a launched run the ready callback is invoked at most once: once
    when the header read returned a non-empty mapping and the process
    information could be computed, and not at all otherwise.  It is invoked
    before any sample is forwarded. *)
Theorem ready_invoked_once (w : world) :
  spawn_result w = Process true true →
  ((readies (trace (run w).2) = [tt]
    ∧ process_info w = None
    ∧ ∃ (h : dict) (rest : list bytes),
        _read_meta (stdout_lines w) = (Ok h, rest) ∧ h ≠ ∅)
   ∨ (readies (trace (run w).2) = []
      ∧ (process_info w ≠ None
         ∨ ∀ (h : dict) (rest : list bytes),
             _read_meta (stdout_lines w) = (Ok h, rest) → h = ∅)))
  ∧ ∀ pre data post,
      trace (run w).2 = pre ++ EvSample data :: post → EvReady ∈ pre.
Proof.
  intros Hs. split.
  - destruct (run_trace w Hs) as (evs & evs' & -> & _ & _ & Hc).
    rewrite readies_app.
    change (readies (EvRunning false :: evs')) with (readies evs').
    rewrite (proj1 (proj2 (cleanup_quiet _ _ Hc))), app_nil_r.
    apply body_readies.
  - intros pre data post Htr. pose proof (run_preceded_ready w) as Hmon.
    rewrite Htr in Hmon.
    destruct (preceded_prefix _ _ _ _ _ _ Hmon eq_refl)
      as [?|([] & Hin & ?)]; done.
Qed.

Lemma ready_invoked_once_witness :
  readies (trace (run scenario).2) = [tt]
  ∧ readies (trace (run (failing 0)).2) = [].
Proof.
  split.
  - destruct (ready_invoked_once scenario eq_refl)
      as [[(Hr & _)|(_ & [Hp|He])] _]; [done|done|].
    by specialize (He _ _ ltac:(by vm_compute)).
  - destruct (ready_invoked_once (failing 0) eq_refl)
      as [[(_ & _ & h & rest & Hh & Hne)|(Hr & _)] _]; [|done].
    vm_compute in Hh. by injection Hh as <- <-.
Defined.


(** ** Exceptions raised by the callbacks *)

(** X4.  A sink that raises ends the loop at once with its exception.  When
    the loop has been let run up to line [n] of the stream (the flag is found
    set and the lines are not empty once stripped) and the sink, having
    returned for the lines before, raises on line [n], the loop raises that
    exception: the sample of line [n] is the last one submitted, its line has
    been consumed, and the lines after it are left unread. *)
Theorem sink_exception_ends_loop (w : world) (n : nat) (stream : list bytes)
  (k : nat) (raw : bytes) (e : exn) :
  stream !! n = Some raw →
  (∀ i, (i ≤ n)%nat → running_at w (k + i) = true) →
  (∀ i raw', (i ≤ n)%nat → stream !! i = Some raw' →
             Py.bytes_rstrip raw' ≠ []) →
  (∀ i raw', (i < n)%nat → stream !! i = Some raw' →
             submit_sample w (k + i) (Py.bytes_rstrip raw') = None) →
  submit_sample w (k + n) (Py.bytes_rstrip raw) = Some e →
  _sample_loop w stream k
  = ((λ raw, EvSample (Py.bytes_rstrip raw)) <$> take (S n) stream,
     (Raise e, drop (S n) stream)).
Proof.
  revert stream k.
  induction n as [|n IH]; intros stream k Hlook Hrun Hlines Hbefore Hsink;
    (destruct stream as [|first stream]; [done|]);
    pose proof (Hrun 0%nat ltac:(lia)) as Hrun0;
    pose proof (Hlines 0%nat first ltac:(lia) eq_refl) as Hfirst;
    rewrite Nat.add_0_r in Hrun0;
    simpl; rewrite Hrun0; simpl;
    (destruct (Py.bytes_rstrip first) as [|c data] eqn:Hdata; [done|]); simpl.
  - injection Hlook as ->. rewrite Nat.add_0_r, Hdata in Hsink.
    by rewrite Hsink, drop_0.
  - pose proof (Hbefore 0%nat first ltac:(lia) eq_refl) as Hsink0.
    rewrite Nat.add_0_r, Hdata in Hsink0. rewrite Hsink0.
    rewrite (IH stream (S k) Hlook); [done|..].
    + intros i Hi. replace (S k + i)%nat with (k + S i)%nat by lia.
      apply Hrun. lia.
    + intros i raw' Hi Hraw'. apply (Hlines (S i) raw'); [lia|done].
    + intros i raw' Hi Hraw'.
      replace (S k + i)%nat with (k + S i)%nat by lia.
      apply (Hbefore (S i) raw'); [lia|done].
    + by replace (S k + n)%nat with (k + S n)%nat by lia.
Qed.

(** With a sink that raises on the second sample, the third line is never
    read. *)
Lemma sink_exception_ends_loop_witness :
  _sample_loop raising_sink
    [Py.b "sample-A" ++ Py.nl; Py.b "sample-B" ++ Py.nl; Py.b "sample-C" ++ Py.nl]
    0
  = ([EvSample (Py.b "sample-A"); EvSample (Py.b "sample-B")],
     (Raise (CallbackError 7), [Py.b "sample-C" ++ Py.nl])).
Proof.
  rewrite (sink_exception_ends_loop raising_sink 1
             [Py.b "sample-A" ++ Py.nl; Py.b "sample-B" ++ Py.nl;
              Py.b "sample-C" ++ Py.nl]
             0 (Py.b "sample-B" ++ Py.nl) (CallbackError 7)).
  - by vm_compute.
  - done.
  - done.
  - intros [|[|i]] raw' Hi; [| |lia]; intros [= <-]; by vm_compute.
  - intros [|i] raw' Hi; [|lia]. intros [= <-]. by vm_compute.
  - by vm_compute.
Defined.

Lemma body_waits (w : world) : waits (trace (body w).2) = [].
Proof.
  destruct (body_trace w) as (evs & -> & Hshape).
  destruct Hshape as [|h|h ds _]; try done.
  apply (waits_of_samples ds).
Qed.

(** X5.  When the termination callback raises, its exception is what the
    caller sees, whatever the body raised and whatever the exit code; the
    diagnostic output is not read and the exit status is never awaited.  The
    footer has been merged into [self._meta] all the same. *)
Theorem terminate_exception_skips_wait (w : world) (f : dict)
  (rest : list bytes) (e : exn) :
  spawn_result w = Process true true →
  footer w = (Ok f, rest) →
  terminate_callback w f = Some e →
  (run w).1 = Raise e
  ∧ trace (run w).2
    = trace (body w).2 ++ [EvRunning false; EvFooter f; EvTerminate f]
  ∧ waits (trace (run w).2) = []
  ∧ _meta (run w).2 = Py.update (_meta (body w).2) f.
Proof.
  intros Hs Hf Ht. rewrite (run_launched _ Hs), start_cleanup_eq.
  unfold footer in Hf. rewrite Hf. cbv zeta. rewrite Ht. cbn [fst snd trace _meta].
  repeat split. by rewrite waits_app, body_waits.
Qed.

Lemma terminate_exception_skips_wait_witness :
  (run raising_terminate).1 = Raise (CallbackError 3)
  ∧ waits (trace (run raising_terminate).2) = [].
Proof.
  destruct (terminate_exception_skips_wait raising_terminate ∅ []
              (CallbackError 3) eq_refl ltac:(by vm_compute) eq_refl)
    as (Hr & _ & Hw & _).
  by split.
Defined.

(** X6.  [_read_stderr] catches the timeout and nothing else: when the
    diagnostic output is not valid UTF-8 the run fails with
    [UnicodeDecodeError], whatever the body raised and whatever the exit
    code, after the termination callback has been invoked and without the
    exit status being awaited. *)
Theorem undecodable_diagnostics_skip_wait (w : world) (f : dict)
  (rest : list bytes) (raw : bytes) :
  spawn_result w = Process true true →
  footer w = (Ok f, rest) →
  terminate_callback w f = None →
  stderr_read w = Some raw →
  Py.decode raw = None →
  (run w).1 = Raise UnicodeDecodeError
  ∧ terminations (trace (run w).2) = [f]
  ∧ waits (trace (run w).2) = [].
Proof.
  intros Hs Hf Ht Hraw Hd. rewrite (run_launched _ Hs), start_cleanup_eq.
  unfold footer in Hf. rewrite Hf. cbv zeta. rewrite Ht.
  unfold _read_stderr. rewrite Hraw, Hd. cbn [fst snd trace].
  repeat split.
  - by rewrite terminations_app, body_no_termination.
  - by rewrite waits_app, body_waits.
Qed.

Lemma undecodable_diagnostics_skip_wait_witness :
  (run undecodable_stderr).1 = Raise UnicodeDecodeError
  ∧ waits (trace (run undecodable_stderr).2) = [].
Proof.
  destruct (undecodable_diagnostics_skip_wait undecodable_stderr ∅ []
              [xc3; x28] eq_refl ltac:(by vm_compute) eq_refl eq_refl eq_refl)
    as (Hr & _ & Hw).
  by split.
Defined.

(** ** What the run reads from the stream *)

(** Metadata lines are read through, whatever they hold. *)
Lemma read_meta_accepts (block stream : list bytes) (meta : dict) :
  forallb is_metadata_line block = true →
  ∃ meta' : dict,
    _read_meta_loop (block ++ stream) meta = _read_meta_loop stream meta'.
Proof.
  revert meta. induction block as [|raw block IH]; intros meta; simpl.
  - intros _. by exists meta.
  - unfold is_metadata_line at 1. intros [Hraw Hblock]%andb_prop.
    destruct (Py.decode raw) as [text|]; [|done]. rewrite Hraw. simpl.
    destruct (meta_entry _) as [k v]. by apply IH.
Qed.

(** The loop while the host lets it run and the sink returns: [n] samples are
    forwarded and the stream is left at the line after them. *)
Lemma sample_loop_stop (w : world) (n : nat) (stream : list bytes) (k : nat) :
  (n ≤ length stream)%nat →
  (∀ i, (i < n)%nat → running_at w (k + i) = true) →
  running_at w (k + n) = false →
  (∀ i raw, (i < n)%nat → stream !! i = Some raw →
            Py.truthy (Py.bytes_rstrip raw) = true
            ∧ submit_sample w (k + i) (Py.bytes_rstrip raw) = None) →
  _sample_loop w stream k
  = ((λ raw, EvSample (Py.bytes_rstrip raw)) <$> take n stream,
     (Ok tt, drop n stream)).
Proof.
  revert stream k. induction n as [|n IH]; intros stream k Hlen Hrun Hstop Hok.
  - rewrite Nat.add_0_r in Hstop. rewrite _sample_loop_unfold, Hstop.
    by rewrite take_0, drop_0.
  - destruct stream as [|raw stream]; [simpl in Hlen; lia|].
    pose proof (Hrun 0%nat ltac:(lia)) as Hrun0.
    destruct (Hok 0%nat raw ltac:(lia) eq_refl) as [Htruthy Hsink].
    rewrite Nat.add_0_r in Hrun0, Hsink.
    simpl. rewrite Hrun0, Htruthy, Hsink. simpl.
    rewrite (IH stream (S k)); [done|simpl in Hlen; lia|..].
    + intros i Hi. replace (S k + i)%nat with (k + S i)%nat by lia.
      apply Hrun. lia.
    + by replace (S k + n)%nat with (k + S n)%nat by lia.
    + intros i raw' Hi Hlook.
      replace (S k + i)%nat with (k + S i)%nat by lia.
      apply (Hok (S i) raw'); [lia|done].
Qed.

Lemma run_stdout (w : world) :
  spawn_result w = Process true true → stdout (run w).2 = (footer w).2.
Proof.
  intros Hs. rewrite (run_launched _ Hs), start_cleanup_eq. unfold footer.
  destruct (_read_meta _) as [[f|e] rest]; [|done]. cbv zeta.
  destruct (terminate_callback w f); [done|].
  destruct (_read_stderr w) as [text|e]; [|done]. by destruct (check_exit _ _).
Qed.

Lemma run_terminations (w : world) (f : dict) (rest : list bytes) :
  spawn_result w = Process true true →
  footer w = (Ok f, rest) → terminations (trace (run w).2) = [f].
Proof.
  intros Hs Hf.
  destruct (run_footer_read w f rest Hs Hf) as (_ & post & -> & Hpost).
  rewrite terminations_app, body_no_termination.
  change (terminations (EvRunning false :: EvFooter f :: EvTerminate f :: post))
    with (f :: terminations post).
  by rewrite Hpost.
Qed.

(** X7.  A stop request is honoured at the head of the loop and reads
    nothing: after [n] samples the stream is left at the next line, and it is
    the footer reader that consumes that line.  When that line is not
    metadata (a sample, say) it is swallowed as the terminator of an empty
    footer: it is never forwarded and the termination callback receives the
    empty mapping. *)
Theorem early_stop_hands_next_line_to_footer (w : world) (h : dict)
  (rest : list bytes) (n : nat) :
  spawn_result w = Process true true →
  _read_meta (stdout_lines w) = (Ok h, rest) →
  h ≠ ∅ →
  process_info w = None →
  ready_callback w = None →
  (n ≤ length rest)%nat →
  (∀ i, (i < n)%nat → running_at w i = true) →
  running_at w n = false →
  (∀ i raw, (i < n)%nat → rest !! i = Some raw →
            Py.truthy (Py.bytes_rstrip raw) = true
            ∧ submit_sample w i (Py.bytes_rstrip raw) = None) →
  (body w).1 = Ok tt
  ∧ samples (trace (run w).2) = Py.bytes_rstrip <$> take n rest
  ∧ footer w = _read_meta (drop n rest)
  ∧ ∀ t rest', drop n rest = t :: rest' → is_terminator t = true →
               terminations (trace (run w).2) = [∅]
               ∧ stdout (run w).2 = rest'.
Proof.
  intros Hs Hh Hne Hp Hr Hlen Hrun Hstop Hok.
  pose proof (sample_loop_stop w n rest 0 Hlen Hrun Hstop Hok) as Hloop.
  assert (body w
          = (Ok tt,
             State (drop n rest) (Py.update (initial_meta w) h)
               ([EvRunning true; EvHeader h; EvReady]
                ++ ((λ raw, EvSample (Py.bytes_rstrip raw)) <$> take n rest))))
    as Hbody.
  { rewrite body_eq, Hh. cbv zeta. unfold Py.dict_truthy.
    rewrite bool_decide_true by done. by rewrite Hp, Hr, Hloop. }
  assert (footer w = _read_meta (drop n rest)) as Hfooter.
  { unfold footer. by rewrite Hbody. }
  split; [by rewrite Hbody|]. split; [|split; [done|]].
  - rewrite (run_samples w Hs), Hbody. cbn [snd trace].
    rewrite samples_app. simpl.
    rewrite <- (samples_of_samples (Py.bytes_rstrip <$> take n rest)).
    by rewrite <- list_fmap_compose.
  - intros t rest' Hdrop Ht.
    assert (footer w = (Ok ∅, rest')) as Hf.
    { rewrite Hfooter, Hdrop. by apply read_meta_terminator. }
    split; [by apply (run_terminations w ∅ rest')|].
    by rewrite (run_stdout w Hs), Hf.
Qed.

Lemma early_stop_hands_next_line_to_footer_witness :
  samples (trace (run stopped_early).2) = [Py.b "sample-A"]
  ∧ terminations (trace (run stopped_early).2) = [∅]
  ∧ stdout (run stopped_early).2 = [].
Proof.
  assert (∀ i, (i < 1)%nat → running_at stopped_early i = true) as Hrun.
  { intros [|i] Hi; [done|lia]. }
  assert (∀ i raw, (i < 1)%nat →
            [Py.b "sample-A" ++ Py.nl; Py.b "sample-B" ++ Py.nl] !! i = Some raw →
            Py.truthy (Py.bytes_rstrip raw) = true
            ∧ submit_sample stopped_early i (Py.bytes_rstrip raw) = None) as Hok.
  { intros [|i] raw Hi; [|lia]. intros [= <-]. by vm_compute. }
  destruct (early_stop_hands_next_line_to_footer stopped_early
              {[ Py.u "key" := Py.u "value"; Py.u "foo" := Py.u "bar" ]}
              [Py.b "sample-A" ++ Py.nl; Py.b "sample-B" ++ Py.nl] 1
              eq_refl ltac:(by vm_compute) ltac:(by vm_compute) eq_refl eq_refl
              ltac:(simpl; lia) Hrun eq_refl Hok)
    as (_ & Hsamples & _ & Hnext).
  split; [exact Hsamples|].
  by apply (Hnext (Py.b "sample-B" ++ Py.nl) []).
Defined.

(** X8.  The line that ends the header is consumed by the header reader and
    is never forwarded: whatever it holds, the samples of a run are the
    stripped text of lines that come after it. *)
Theorem header_terminator_not_forwarded (w : world) (block : list bytes)
  (t : bytes) (rest : list bytes) :
  spawn_result w = Process true true →
  stdout_lines w = block ++ t :: rest →
  forallb is_metadata_line block = true →
  is_terminator t = true →
  ∃ n : nat,
    (n ≤ length rest)%nat
    ∧ samples (trace (run w).2) = Py.bytes_rstrip <$> take n rest.
Proof.
  intros Hs Hlines Hblock Ht. rewrite (run_samples w Hs).
  destruct (body_samples w) as [E|(h & rest0 & Hh & _ & _ & _ & E & _)].
  { exists 0%nat. rewrite E, take_0. split; [lia|done]. }
  assert (rest0 = rest) as ->.
  { unfold _read_meta in Hh. rewrite Hlines in Hh.
    destruct (read_meta_accepts block (t :: rest) ∅ Hblock) as [meta' E'].
    rewrite E', (read_meta_terminator _ _ _ Ht) in Hh. congruence. }
  destruct (sample_loop_prefix w rest 0) as (n & Hn & Hevs & _).
  exists n. split; [done|]. rewrite E, Hevs.
  rewrite <- (samples_of_samples (Py.bytes_rstrip <$> take n rest)).
  by rewrite <- list_fmap_compose.
Qed.

Lemma header_terminator_not_forwarded_witness :
  ∃ n : nat,
    (n ≤ 1)%nat
    ∧ samples (trace (run no_blank_line).2)
      = Py.bytes_rstrip <$> take n [Py.b "sample-B" ++ Py.nl].
Proof.
  apply (header_terminator_not_forwarded no_blank_line
           [Py.b "# key: value" ++ Py.nl] (Py.b "sample-A" ++ Py.nl)
           [Py.b "sample-B" ++ Py.nl]); by vm_compute.
Defined.

(** X9.  A line that is not UTF-8 in the middle of the header makes the
    header read raise [UnicodeDecodeError]: the entries of the lines read
    before it are dropped, [self._meta] is left as it was, the ready callback
    is not invoked and no sample is forwarded; the cleanup then reads the
    footer from the line after the bad one. *)
Theorem undecodable_header_drops_entries (w : world) (block : list bytes)
  (bad : bytes) (rest : list bytes) :
  spawn_result w = Process true true →
  stdout_lines w = block ++ bad :: rest →
  forallb is_metadata_line block = true →
  Py.decode bad = None →
  body w = (Raise UnicodeDecodeError,
            State rest (initial_meta w) [EvRunning true])
  ∧ footer w = _read_meta rest
  ∧ readies (trace (run w).2) = []
  ∧ samples (trace (run w).2) = [].
Proof.
  intros Hs Hlines Hblock Hbad.
  assert (body w = (Raise UnicodeDecodeError,
                    State rest (initial_meta w) [EvRunning true])) as Hbody.
  { rewrite body_eq. unfold _read_meta. rewrite Hlines.
    destruct (read_meta_accepts block (bad :: rest) ∅ Hblock) as [meta' ->].
    simpl. by rewrite Hbad. }
  split; [done|]. split; [unfold footer; by rewrite Hbody|].
  destruct (run_trace w Hs) as (evs & evs' & -> & _ & _ & Hc).
  destruct (cleanup_quiet _ _ Hc) as (Hsamples & Hreadies & _).
  rewrite readies_app, samples_app, Hbody. cbn [snd trace].
  change (readies (EvRunning false :: evs')) with (readies evs').
  change (samples (EvRunning false :: evs')) with (samples evs').
  by rewrite Hsamples, Hreadies.
Qed.

Lemma undecodable_header_drops_entries_witness :
  _meta (body undecodable_header).2 = {[ Py.u "old" := Py.u "entry" ]}
  ∧ (body undecodable_header).1 = Raise UnicodeDecodeError.
Proof.
  destruct (undecodable_header_drops_entries undecodable_header
              [Py.b "# key: value" ++ Py.nl] [x23; x20; xff; x0a]
              [Py.nl; Py.b "sample-A" ++ Py.nl]
              eq_refl eq_refl eq_refl eq_refl) as (Hbody & _).
  by rewrite Hbody.
Defined.

(** One call of the metadata reader, however it ends. *)
Lemma read_meta_split (stream rest : list bytes) (meta : dict)
  (r : result dict) :
  _read_meta_loop stream meta = (r, rest) →
  ∃ read, stream = read ++ rest ∧ block_read read rest.
Proof.
  revert meta. induction stream as [|raw stream IH]; intros meta; simpl.
  - intros [= <- <-]. exists []. split; [done|]. exists [].
    split; [done|by left].
  - assert (is_metadata_line raw = false →
            ∃ read, raw :: stream = read ++ stream ∧ block_read read stream)
      as Hend.
    { intros Hraw. exists [raw]. split; [done|]. exists [].
      split; [done|]. right. by exists raw. }
    unfold is_metadata_line in Hend at 1.
    destruct (Py.decode raw) as [text|] eqn:Hd;
      [|intros [= <- <-]; by apply Hend].
    destruct (is_meta _) eqn:Hm; simpl; [|intros [= <- <-]; by apply Hend].
    destruct (meta_entry _) as [k v].
    intros (read & -> & accepted & Hacc & Hcut)%IH.
    exists (raw :: read). split; [done|]. exists (raw :: accepted). split.
    + cbn [forallb]. rewrite Hacc. unfold is_metadata_line.
      by rewrite Hd, Hm.
    + destruct Hcut as [[-> ->]|(t & Ht & ->)]; [by left|].
      right. by exists t.
Qed.

(** The sample loop, however it ends: the lines it forwarded, then the line
    that ended it when a read did, then what it left. *)
Lemma sample_loop_split (w : world) (stream : list bytes) (k : nat) :
  ∃ sample_lines ending : list bytes,
    stream = sample_lines ++ ending ++ (_sample_loop w stream k).2.2
    ∧ (_sample_loop w stream k).1
      = (λ raw, EvSample (Py.bytes_rstrip raw)) <$> sample_lines
    ∧ (ending = [] ∨ ∃ raw, ending = [raw] ∧ Py.bytes_rstrip raw = []).
Proof.
  revert k. induction stream as [|raw stream IH]; intros k; simpl.
  - exists [], []. destruct (running_at w k); simpl; auto.
  - destruct (running_at w k); simpl.
    2: { exists [], []. split; [done|]. split; [done|by left]. }
    destruct (Py.bytes_rstrip raw) as [|c data] eqn:Hdata; simpl.
    { exists [], [raw]. split; [done|]. split; [done|]. right. by exists raw. }
    destruct (submit_sample w k _).
    { exists [raw], []. split; [done|]. simpl. rewrite Hdata.
      split; [done|by left]. }
    destruct (IH (S k)) as (sample_lines & ending & Hcut & Hevs & Hending).
    destruct (_sample_loop w stream (S k)) as [evs [r rest]]. simpl in *.
    exists (raw :: sample_lines), ending. split; [simpl; by f_equal|].
    split; [simpl; by rewrite Hdata, Hevs|done].
Qed.

(** The lines the [try] body takes off the stream. *)
Lemma body_lines (w : world) :
  ∃ header_lines sample_lines ending : list bytes,
    stdout_lines w
    = header_lines ++ sample_lines ++ ending ++ stdout (body w).2
    ∧ block_read header_lines (sample_lines ++ ending ++ stdout (body w).2)
    ∧ samples (trace (body w).2) = Py.bytes_rstrip <$> sample_lines
    ∧ (ending = [] ∨ ∃ raw, ending = [raw] ∧ Py.bytes_rstrip raw = []).
Proof.
  rewrite body_eq.
  destruct (_read_meta (stdout_lines w)) as [r rest] eqn:Hh.
  destruct (read_meta_split _ _ _ _ Hh) as (read & -> & Hread).
  assert (∀ (r' : result unit) (meta : dict) (evs : list event),
            samples evs = [] →
            ∃ header_lines sample_lines ending : list bytes,
              read ++ rest
              = header_lines ++ sample_lines ++ ending
                ++ stdout (r', State rest meta evs).2
              ∧ block_read header_lines
                  (sample_lines ++ ending ++ stdout (r', State rest meta evs).2)
              ∧ samples (trace (r', State rest meta evs).2)
                = Py.bytes_rstrip <$> sample_lines
              ∧ (ending = [] ∨ ∃ raw, ending = [raw] ∧ Py.bytes_rstrip raw = []))
    as Hquiet.
  { intros r' meta evs Hevs. exists read, [], [].
    split; [done|]. split; [done|]. split; [done|by left]. }
  destruct r as [h|e]; [|by apply Hquiet]. cbv zeta.
  destruct (Py.dict_truthy h); [|by apply Hquiet].
  destruct (process_info w); [by apply Hquiet|].
  destruct (ready_callback w); [by apply Hquiet|].
  destruct (sample_loop_split w rest 0)
    as (sample_lines & ending & Hcut & Hevs & Hending).
  destruct (_sample_loop w rest 0) as [evs [r rest']]. simpl in *.
  exists read, sample_lines, ending. rewrite <- Hcut.
  split; [done|]. split; [done|]. split; [|done].
  rewrite Hevs. apply (samples_of_lines sample_lines).
Qed.

(** X10.  Every line of the child's standard output is read at most once and
    by one reader only.  On a launched run the stream is cut into consecutive
    pieces: the lines the header read took (metadata lines and the one line
    that ended the block), the lines forwarded as samples (each once, in
    order, stripped), the line that ended the sample loop when a read ended it
    (empty once stripped, and not forwarded), the lines the footer read took,
    and the lines no one read.  So the line that ends the header block is
    neither forwarded as a sample nor seen by the footer read. *)
Theorem each_line_read_once (w : world) :
  spawn_result w = Process true true →
  ∃ header_lines sample_lines ending footer_lines : list bytes,
    stdout_lines w
    = header_lines ++ sample_lines ++ ending ++ footer_lines
      ++ stdout (run w).2
    ∧ block_read header_lines
        (sample_lines ++ ending ++ footer_lines ++ stdout (run w).2)
    ∧ samples (trace (run w).2) = Py.bytes_rstrip <$> sample_lines
    ∧ (ending = [] ∨ ∃ raw, ending = [raw] ∧ Py.bytes_rstrip raw = [])
    ∧ block_read footer_lines (stdout (run w).2).
Proof.
  intros Hs. rewrite (run_stdout w Hs), (run_samples w Hs). unfold footer.
  destruct (body_lines w)
    as (header_lines & sample_lines & ending & Hcut & Hheader & Hsamples
        & Hending).
  destruct (_read_meta (stdout (body w).2)) as [r left] eqn:Hf.
  destruct (read_meta_split _ _ _ _ Hf) as (footer_lines & Hleft & Hfooter).
  rewrite Hleft in Hcut, Hheader.
  by exists header_lines, sample_lines, ending, footer_lines.
Qed.

(** The scenario of section 8: three lines for the header, two samples, no
    line left. *)
Lemma each_line_read_once_witness :
  ∃ header_lines sample_lines ending footer_lines : list bytes,
    stdout_lines scenario
    = header_lines ++ sample_lines ++ ending ++ footer_lines
      ++ stdout (run scenario).2
    ∧ samples (trace (run scenario).2) = Py.bytes_rstrip <$> sample_lines.
Proof.
  destruct (each_line_read_once scenario eq_refl)
    as (header_lines & sample_lines & ending & footer_lines & Hcut & _
        & Hsamples & _).
  by exists header_lines, sample_lines, ending, footer_lines.
Defined.

(** ** Output that is ASCII *)

Lemma decode_ascii (raw : bytes) :
  is_ascii raw = true → Py.decode raw = Some (map Byte.to_N raw).
Proof.
  unfold Py.decode, is_ascii. induction raw as [|c raw IH]; simpl; [done|].
  intros [Hc Hraw]%andb_prop. by rewrite Hc, (IH Hraw).
Qed.

Lemma read_meta_ascii (stream : list bytes) (meta : dict) :
  forallb is_ascii stream = true →
  ∃ (found : dict) (rest : list bytes),
    _read_meta_loop stream meta = (Ok found, rest)
    ∧ forallb is_ascii rest = true.
Proof.
  revert meta. induction stream as [|raw stream IH]; intros meta; simpl.
  - intros _. by exists meta, [].
  - intros [Hraw Hstream]%andb_prop. rewrite (decode_ascii raw Hraw).
    destruct (is_meta _); simpl; [|by exists meta, stream].
    destruct (meta_entry _) as [k v]. by apply IH.
Qed.

(** X11.  Decoding cannot fail on ASCII.  A line that is ASCII throughout
    decodes to its own code points, so that reading lines of ASCII the
    metadata reader never raises [UnicodeDecodeError], whatever the lines
    hold and however many there are. *)
Theorem read_meta_ascii_decodes (stream : list bytes) (meta : dict) :
  forallb is_ascii stream = true →
  (∀ raw, raw ∈ stream → Py.decode raw = Some (Byte.to_N <$> raw))
  ∧ ∀ rest, _read_meta_loop stream meta ≠ (Raise UnicodeDecodeError, rest).
Proof.
  intros Hascii. split.
  - intros raw Hin. apply decode_ascii.
    rewrite forallb_forall in Hascii. apply Hascii.
    by apply list_elem_of_In.
  - intros rest E.
    destruct (read_meta_ascii stream meta Hascii) as (found & rest' & E' & _).
    congruence.
Qed.

Lemma read_meta_ascii_decodes_witness :
  Py.decode (Py.b "# key: value" ++ Py.nl)
  = Some (Byte.to_N <$> Py.b "# key: value" ++ Py.nl).
Proof.
  apply (proj1 (read_meta_ascii_decodes (stdout_lines scenario) ∅ eq_refl)).
  apply list_elem_of_here.
Defined.

(** ** [self._meta] *)

Lemma body_meta_cases (w : world) :
  (_meta (body w).2 = initial_meta w
   ∧ ∃ e rest, _read_meta (stdout_lines w) = (Raise e, rest))
  ∨ ∃ (h : dict) (rest : list bytes),
      _read_meta (stdout_lines w) = (Ok h, rest)
      ∧ _meta (body w).2 = Py.update (initial_meta w) h.
Proof.
  destruct (_read_meta (stdout_lines w)) as [[h|e] rest] eqn:Hh.
  - right. exists h, rest. split; [done|]. by apply (body_meta w h rest).
  - left. rewrite body_eq, Hh. split; [done|]. by exists e, rest.
Qed.

Lemma run_meta_cases (w : world) :
  spawn_result w = Process true true →
  (_meta (run w).2 = _meta (body w).2
   ∧ ∃ e rest, footer w = (Raise e, rest))
  ∨ ∃ (f : dict) (rest : list bytes),
      footer w = (Ok f, rest)
      ∧ _meta (run w).2 = Py.update (_meta (body w).2) f.
Proof.
  intros Hs. destruct (footer w) as [[f|e] rest] eqn:Hf.
  - right. exists f, rest. split; [done|].
    by destruct (run_footer_read w f rest Hs Hf).
  - left. rewrite (run_launched _ Hs), start_cleanup_eq.
    unfold footer in Hf. rewrite Hf. split; [done|]. by exists e, rest.
Qed.

(** X13.  [start] never resets [self._meta]: a key that was there before the
    run is still there after it, and it keeps its value unless the header or
    the footer of this run names it. *)
Theorem meta_never_reset (w : world) (key value : list N) :
  initial_meta w !! key = Some value →
  is_Some (_meta (run w).2 !! key)
  ∧ ((∀ (h : dict) (rest : list bytes),
        _read_meta (stdout_lines w) = (Ok h, rest) → h !! key = None) →
     (∀ (f : dict) (rest : list bytes),
        footer w = (Ok f, rest) → f !! key = None) →
     _meta (run w).2 !! key = Some value).
Proof.
  intros Hkey.
  destruct (decide (spawn_result w = Process true true)) as [Hs|Hs].
  2: { destruct (run_not_launched w Hs) as [msg ->]. simpl.
       split; [by eexists|done]. }
  assert (is_Some (_meta (body w).2 !! key)
          ∧ ((∀ (h : dict) (rest : list bytes),
                _read_meta (stdout_lines w) = (Ok h, rest) → h !! key = None) →
             _meta (body w).2 !! key = Some value)) as [Hsome Hkeep].
  { destruct (body_meta_cases w) as [[-> _]|(h & rest & Hh & ->)].
    - split; [by eexists|done].
    - unfold Py.update. split.
      + rewrite lookup_union. destruct (h !! key); rewrite Hkey; by eexists.
      + intros Hnone. by rewrite (lookup_union_r _ _ _ (Hnone h rest Hh)). }
  destruct (run_meta_cases w Hs) as [[-> _]|(f & rest & Hf & ->)].
  - split; [done|]. intros Hh _. by apply Hkeep.
  - unfold Py.update. split.
    + rewrite lookup_union. destruct Hsome as [v ->].
      destruct (f !! key); by eexists.
    + intros Hh Hnone. rewrite (lookup_union_r _ _ _ (Hnone f rest Hf)).
      by apply Hkeep.
Qed.

Lemma meta_never_reset_witness :
  _meta (run undecodable_header).2 !! Py.u "old" = Some (Py.u "entry").
Proof.
  destruct (meta_never_reset undecodable_header (Py.u "old") (Py.u "entry")
              ltac:(by vm_compute)) as [_ Hkeep].
  apply Hkeep.
  - intros h rest Hh. by vm_compute in Hh.
  - intros f rest Hf. vm_compute in Hf. by injection Hf as <- <-.
Defined.

(** ** Metadata lines and their entries *)

Lemma startswith_app_l (s rest prefix : str) :
  Py.startswith s prefix = true → Py.startswith (s ++ rest) prefix = true.
Proof.
  revert s. induction prefix as [|p prefix IH]; intros s; simpl; [done|].
  destruct s as [|c s]; [done|]. simpl.
  intros [-> Hs]%andb_prop. by rewrite (IH s Hs).
Qed.

(** Text before the first occurrence of a separator holds none. *)
Lemma contains_before_first (before rest sep : str) :
  sep ≠ [] →
  (∀ i, (i < length before)%nat →
        Py.startswith (drop i (before ++ rest)) sep = false) →
  Py.contains before sep = false.
Proof.
  intros Hsep. induction before as [|c before IH]; intros Hfirst.
  - simpl. by destruct sep.
  - simpl. apply orb_false_intro.
    + destruct (Py.startswith (c :: before) sep) eqn:E; [|done].
      apply (startswith_app_l _ rest) in E.
      pose proof (Hfirst 0%nat ltac:(simpl; lia)) as H0.
      rewrite drop_0 in H0. congruence.
    + apply IH. intros i Hi. apply (Hfirst (S i)). simpl. lia.
Qed.

Lemma partition_absent (s sep : str) :
  Py.contains s sep = false → Py.partition s sep = (s, [], []).
Proof.
  induction s as [|c s IH]; [done|].
  simpl. intros [-> Hc]%orb_false_elim. by rewrite (IH Hc).
Qed.

(** X14.  Parsing a metadata line loses nothing: the stripped line is the
    marker, the key and, when the value is not empty, [": "] and the value.
    The key never holds [": "], and an empty value arises only from a line
    without [": "]. *)
Theorem meta_entry_renders_back (text key value : str) :
  is_meta (Py.str_rstrip text) = true →
  meta_entry (Py.str_rstrip text) = (key, value) →
  render_entry key value = Py.str_rstrip text
  ∧ Py.contains key separator = false
  ∧ (value = [] → Py.contains (drop 2 (Py.str_rstrip text)) separator = false).
Proof.
  set (line := Py.str_rstrip text). intros Hmeta Hentry.
  assert (line = marker ++ drop 2 line) as Hline.
  { apply andb_prop in Hmeta as [_ Hstart]. by apply startswith_split in Hstart. }
  assert (Py.str_rstrip line = line) as Hstripped by apply rstrip_by_idemp.
  unfold meta_entry in Hentry.
  destruct (Py.partition (drop 2 line) separator) as [[k f] v] eqn:P.
  injection Hentry as -> ->.
  pose proof (partition_concat _ _ _ _ _ P) as Hcat.
  destruct (partition_first _ _ _ _ _ P) as [[-> Hfirst]|(-> & -> & -> & Hno)].
  - assert (value ≠ []) as Hvalue.
    { intros ->. rewrite Hcat, app_nil_r in Hline.
      assert (last line = Some 32%N) as Hlast.
      { rewrite Hline, separator_eq.
        replace (marker ++ key ++ [58%N; 32%N])
          with ((marker ++ key ++ [58%N]) ++ [32%N])
          by by rewrite <- !app_assoc.
        apply last_snoc. }
      rewrite <- Hstripped in Hlast.
      by pose proof (rstrip_by_last _ _ _ Hlast). }
    split; [|split; [|done]].
    + unfold render_entry. destruct value; [done|]. simpl Py.truthy. cbv iota.
      by rewrite <- Hcat.
    + apply (contains_before_first key (separator ++ value)); [done|].
      by rewrite <- Hcat.
  - split; [|split; [done|done]].
    unfold render_entry. simpl. by rewrite app_nil_r.
Qed.

Lemma meta_entry_renders_back_witness :
  render_entry (Py.u "key") (Py.u "a: b") = Py.u "# key: a: b".
Proof.
  destruct (meta_entry_renders_back (Py.u "# key: a: b  ") (Py.u "key")
              (Py.u "a: b") eq_refl eq_refl) as [Hrender _].
  rewrite Hrender. by vm_compute.
Defined.

(** X15.  A metadata line whose value is empty, ["# key: "] followed by
    whitespace only, is stored under the key ["key:"], colon included, with
    the empty value: the space of the separator is stripped with the rest of
    the line before the line is cut. *)
Theorem empty_value_keeps_colon (raw : bytes) (key ws : str)
  (stream : list bytes) (meta : dict) :
  Py.decode raw = Some (marker ++ key ++ separator ++ ws) →
  forallb Py.str_isspace ws = true →
  Py.contains key separator = false →
  _read_meta_loop (raw :: stream) meta
  = _read_meta_loop stream (<[key ++ [58%N] := []]> meta).
Proof.
  intros Hd Hws Hkey.
  assert (Py.str_rstrip (marker ++ key ++ separator ++ ws)
          = marker ++ key ++ [58%N]) as Hs.
  { rewrite separator_eq.
    replace (marker ++ key ++ [58%N; 32%N] ++ ws)
      with ((marker ++ key ++ [58%N]) ++ 32%N :: ws)
      by by rewrite <- !app_assoc.
    unfold Py.str_rstrip. rewrite rstrip_by_app_spaces by (simpl; by rewrite Hws).
    replace (marker ++ key ++ [58%N]) with ((marker ++ key) ++ [58%N])
      by by rewrite <- app_assoc.
    by apply rstrip_by_app_word. }
  assert (Py.contains (key ++ [58%N]) separator = false) as Hno.
  { rewrite separator_eq in *. clear -Hkey.
    induction key as [|c key IH]; [done|].
    apply orb_false_elim in Hkey as [Hstart Hrest].
    change ((c :: key) ++ [58%N]) with (c :: (key ++ [58%N])).
    cbn [Py.contains]. rewrite (IH Hrest), orb_false_r.
    revert Hstart. cbn. destruct (N.eqb c 58); [|done].
    destruct key as [|c' key]; cbn; [done|]. by destruct (N.eqb c' 32). }
  cbn [_read_meta_loop]. rewrite Hd. cbv zeta. rewrite Hs.
  unfold is_meta, meta_entry. rewrite startswith_app.
  change (drop 2 (marker ++ key ++ [58%N])) with (key ++ [58%N]).
  by rewrite (partition_absent _ _ Hno).
Qed.

Lemma empty_value_keeps_colon_witness :
  _read_meta [Py.b "# duration: " ++ Py.nl]
  = (Ok {[ Py.u "duration:" := [] ]}, []).
Proof.
  unfold _read_meta.
  rewrite (empty_value_keeps_colon (Py.b "# duration: " ++ Py.nl)
             (Py.u "duration") [10%N] [] ∅ eq_refl eq_refl eq_refl).
  by vm_compute.
Defined.

(** ** The diagnostic read *)

(** X16.  [_read_stderr] tells a timeout from silence: it returns [None]
    exactly when the read timed out, and a child that wrote nothing, or only
    whitespace, yields the empty string.  The text it returns never ends in
    whitespace. *)
Theorem read_stderr_timeout_or_text (w : world) :
  (_read_stderr w = Ok None ↔ stderr_read w = None)
  ∧ (∀ raw, stderr_read w = Some raw →
            forallb Py.bytes_isspace raw = true →
            _read_stderr w = Ok (Some []))
  ∧ (∀ text, _read_stderr w = Ok (Some text) → Py.str_rstrip text = text).
Proof.
  unfold _read_stderr. split; [|split].
  - destruct (stderr_read w) as [raw|]; [|done].
    by destruct (Py.decode raw).
  - intros raw -> Hws.
    assert (is_ascii raw = true ∧ forallb Py.str_isspace (map Byte.to_N raw) = true)
      as [Hascii Hspace].
    { induction raw as [|c raw IH]; [done|]. simpl in *.
      apply andb_prop in Hws as [Hc Hraw]. destruct (IH Hraw) as [-> ->].
      rewrite !andb_true_r. unfold Py.bytes_isspace in Hc.
      unfold Py.str_isspace. destruct (Byte.to_N c) as [|p]; [done|].
      split.
      - apply orb_prop in Hc as [[H1 H2]%andb_prop| ->%N.eqb_eq]; [|done].
        apply N.ltb_lt. apply N.leb_le in H2. lia.
      - apply orb_prop in Hc as [->| ->%N.eqb_eq]; done. }
    rewrite (decode_ascii raw Hascii). unfold Py.str_rstrip.
    by rewrite (rstrip_by_spaces _ _ Hspace).
  - intros text. destruct (stderr_read w) as [raw|]; [|done].
    destruct (Py.decode raw); [|done]. intros [= <-]. apply rstrip_by_idemp.
Qed.

(** ** A ready callback that raises *)

(** X18.  When the process information cannot be computed or the ready
    callback raises, the sample loop is never entered: that exception ends
    the body, no sample is forwarded, and the cleanup reads the footer from
    the line that follows the header, so that the first sample line, if any,
    is consumed as the terminator of an empty footer. *)
Theorem ready_exception_prevents_samples (w : world) (h : dict)
  (rest : list bytes) (e : exn) :
  spawn_result w = Process true true →
  _read_meta (stdout_lines w) = (Ok h, rest) →
  h ≠ ∅ →
  process_info w = Some e
  ∨ (process_info w = None ∧ ready_callback w = Some e) →
  (body w).1 = Raise e
  ∧ samples (trace (run w).2) = []
  ∧ footer w = _read_meta rest
  ∧ ∀ t rest', rest = t :: rest' → is_terminator t = true →
               terminations (trace (run w).2) = [∅]
               ∧ stdout (run w).2 = rest'.
Proof.
  intros Hs Hh Hne Hraise.
  assert ((body w).1 = Raise e ∧ stdout (body w).2 = rest
          ∧ samples (trace (body w).2) = []) as (Hr & Hrest & Hsamples).
  { rewrite body_eq, Hh. cbv zeta. unfold Py.dict_truthy.
    rewrite bool_decide_true by done.
    destruct Hraise as [-> | [-> ->]]; done. }
  assert (footer w = _read_meta rest) as Hfooter.
  { unfold footer. by rewrite Hrest. }
  split; [done|]. split; [by rewrite (run_samples w Hs)|]. split; [done|].
  intros t rest' -> Ht.
  assert (footer w = (Ok ∅, rest')) as Hf.
  { rewrite Hfooter. by apply read_meta_terminator. }
  split; [by apply (run_terminations w ∅ rest')|].
  by rewrite (run_stdout w Hs), Hf.
Qed.

Lemma ready_exception_prevents_samples_witness :
  (body raising_ready).1 = Raise (CallbackError 5)
  ∧ samples (trace (run raising_ready).2) = []
  ∧ terminations (trace (run raising_ready).2) = [∅].
Proof.
  destruct (ready_exception_prevents_samples raising_ready
              {[ Py.u "key" := Py.u "value"; Py.u "foo" := Py.u "bar" ]}
              [Py.b "sample-A" ++ Py.nl; Py.b "sample-B" ++ Py.nl]
              (CallbackError 5) eq_refl ltac:(by vm_compute)
              ltac:(by vm_compute) ltac:(by right))
    as (Hr & Hsamples & _ & Hnext).
  split; [done|]. split; [done|].
  by apply (Hnext (Py.b "sample-A" ++ Py.nl) [Py.b "sample-B" ++ Py.nl]).
Defined.
